(** * TransferToHeadset: the network transfer subsystem of the Blender add-on

    A shallow embedding of [src/TransferToHeadset.py]: the operator's
    [execute], [discover_headset] and [send_data] methods, together with the
    Python primitives they rely on ([str.strip], [bytes.decode],
    [str.encode], [struct.pack]).

    Python values are modelled as follows.
    - [bytes] is [list byte];
    - [str] is the list of its Unicode code points, each an [N];
    - [int] lengths are [N]; [time.time()] readings are rationals ([Q]);
    - an exception is a value of [exn]; a call that may raise returns a
      [result];
    - every effect (socket call, clock reading, [print], [self.report],
      thread start) is recorded, in program order, in a trace of [event]s,
      and the answers of the outside world are read from explicit oracles
      ([udp_world], [tcp_world], [host]). *)

From Stdlib Require Import List NArith ZArith QArith Lia Bool String Ascii.
From Stdlib.Strings Require Import Byte.
Import ListNotations.

Local Open Scope N_scope.

(** ** Bytes, strings, exceptions *)

Definition bytes := list byte.

(** A Python [str]: the sequence of its code points. *)
Definition pystr := list N.

(** The code points of a literal written in the source. *)
Definition lit (s : string) : pystr :=
  map N_of_ascii (list_ascii_of_string s).

(** A bytes literal [b"..."] of the source. *)
Definition blit (s : string) : bytes :=
  map byte_of_ascii (list_ascii_of_string s).

Definition pystr_eqb (a b : pystr) : bool :=
  if list_eq_dec N.eq_dec a b then true else false.

(** The exceptions the modelled calls can raise. [SocketTimeout] is the
    [socket.timeout] raised when a socket's own timeout runs out;
    [RuntimeError] is what the calls into Blender and [Thread.start] raise;
    every constructor is an instance of [Exception]. *)
Inductive exn : Type :=
| SocketTimeout
| OSError (errno : N)
| UnicodeDecodeError
| UnicodeEncodeError
| StructError
| RuntimeError.

(** [errno.ETIMEDOUT], in the numbering of Linux, as are the other error
    numbers used below. *)
Definition ETIMEDOUT : N := 110.

(** What [except socket.timeout] catches.  From Python 3.10 on
    [socket.timeout] is the built-in [TimeoutError], which is also the
    class of every [OSError] whose errno is [ETIMEDOUT]. *)
Definition is_socket_timeout (e : exn) : bool :=
  match e with
  | SocketTimeout => true
  | OSError errno => errno =? ETIMEDOUT
  | _ => false
  end.

Inductive result (A : Type) : Type :=
| Ok (a : A)
| Raise (e : exn).
Arguments Ok {A} a.
Arguments Raise {A} e.

(** The low eight bits of [n] as a byte. *)
Definition byte_of_N (n : N) : byte :=
  match Byte.of_N (N.land n 255) with
  | Some b => b
  | None => x00
  end.

(** ** [bytes.decode('utf-8')] and [str.encode('utf-8')] (strict) *)

Definition is_cont (b : N) : bool := (128 <=? b) && (b <=? 191).

Definition is_surrogate (c : N) : bool := (55296 <=? c) && (c <=? 57343).

Definition cp2 (b0 b1 : N) : N := (b0 - 192) * 64 + (b1 - 128).
Definition cp3 (b0 b1 b2 : N) : N :=
  (b0 - 224) * 4096 + (b1 - 128) * 64 + (b2 - 128).
Definition cp4 (b0 b1 b2 b3 : N) : N :=
  (b0 - 240) * 262144 + (b1 - 128) * 4096 + (b2 - 128) * 64 + (b3 - 128).

(** The strict decoder: shortest form only, no surrogates, nothing above
    U+10FFFF; [None] stands for [UnicodeDecodeError]. *)
Fixpoint utf8_decode (bs : bytes) : option pystr :=
  match bs with
  | [] => Some []
  | x0 :: r0 =>
    let b0 := Byte.to_N x0 in
    if b0 <? 128 then option_map (cons b0) (utf8_decode r0)
    else match r0 with
    | [] => None
    | x1 :: r1 =>
      let b1 := Byte.to_N x1 in
      if negb (is_cont b1) then None
      else if (192 <=? b0) && (b0 <? 224) then
        if 128 <=? cp2 b0 b1
        then option_map (cons (cp2 b0 b1)) (utf8_decode r1)
        else None
      else match r1 with
      | [] => None
      | x2 :: r2 =>
        let b2 := Byte.to_N x2 in
        if negb (is_cont b2) then None
        else if (224 <=? b0) && (b0 <? 240) then
          if (2048 <=? cp3 b0 b1 b2) && negb (is_surrogate (cp3 b0 b1 b2))
          then option_map (cons (cp3 b0 b1 b2)) (utf8_decode r2)
          else None
        else match r2 with
        | [] => None
        | x3 :: r3 =>
          let b3 := Byte.to_N x3 in
          if negb (is_cont b3) then None
          else if (240 <=? b0) && (b0 <? 248) then
            if (65536 <=? cp4 b0 b1 b2 b3) && (cp4 b0 b1 b2 b3 <? 1114112)
            then option_map (cons (cp4 b0 b1 b2 b3)) (utf8_decode r3)
            else None
          else None
        end
      end
    end
  end.

Definition bytes_decode (bs : bytes) : result pystr :=
  match utf8_decode bs with
  | Some s => Ok s
  | None => Raise UnicodeDecodeError
  end.

(** The bytes of one code point, or [None] where the strict encoder raises
    (a lone surrogate). *)
Definition utf8_encode_cp (c : N) : option bytes :=
  if c <? 128 then Some [byte_of_N c]
  else if c <? 2048 then
    Some [byte_of_N (192 + c / 64); byte_of_N (128 + c mod 64)]
  else if c <? 65536 then
    if is_surrogate c then None
    else Some [byte_of_N (224 + c / 4096);
               byte_of_N (128 + (c / 64) mod 64);
               byte_of_N (128 + c mod 64)]
  else if c <? 1114112 then
    Some [byte_of_N (240 + c / 262144);
          byte_of_N (128 + (c / 4096) mod 64);
          byte_of_N (128 + (c / 64) mod 64);
          byte_of_N (128 + c mod 64)]
  else None.

Fixpoint utf8_encode (s : pystr) : option bytes :=
  match s with
  | [] => Some []
  | c :: r =>
    match utf8_encode_cp c, utf8_encode r with
    | Some h, Some t => Some (h ++ t)
    | _, _ => None
    end
  end.

Definition str_encode (s : pystr) : result bytes :=
  match utf8_encode s with
  | Some b => Ok b
  | None => Raise UnicodeEncodeError
  end.

(** ** [str.strip()] *)

(** The code points for which [str.isspace()] holds. *)
Definition is_space (c : N) : bool :=
  ((9 <=? c) && (c <=? 13)) || ((28 <=? c) && (c <=? 32))
  || (c =? 133) || (c =? 160) || (c =? 5760)
  || ((8192 <=? c) && (c <=? 8202))
  || (c =? 8232) || (c =? 8233) || (c =? 8239) || (c =? 8287) || (c =? 12288).

Fixpoint lstrip (s : pystr) : pystr :=
  match s with
  | c :: r => if is_space c then lstrip r else s
  | [] => []
  end.

Definition strip (s : pystr) : pystr := rev (lstrip (rev (lstrip s))).

(** ** [struct.pack('>I', n)] and [struct.pack('>Q', n)] *)

(** The [w] low-order bytes of [n], most significant first. *)
Fixpoint be_bytes (w : nat) (n : N) : bytes :=
  match w with
  | O => []
  | S w' => byte_of_N (N.shiftr n (8 * N.of_nat w')) :: be_bytes w' n
  end.

(** [struct.pack] of an unsigned big-endian field of [w] bytes raises
    [struct.error] when the argument does not fit. *)
Definition struct_pack_be (w : nat) (n : N) : result bytes :=
  if n <? 2 ^ (8 * N.of_nat w) then Ok (be_bytes w n) else Raise StructError.

(** What a big-endian byte string denotes (the reading of the receiver). *)
Definition be_value (bs : bytes) : N :=
  fold_left (fun acc b => acc * 256 + Byte.to_N b) bs 0.

Definition len {A} (l : list A) : N := N.of_nat (List.length l).

(** Lines 172-177 of [send_data]: the packet. *)
Definition make_packet (file_data : bytes) (file_name : pystr) : result bytes :=
  match str_encode file_name with
  | Raise e => Raise e
  | Ok name_bytes =>
    match struct_pack_be 4 (len name_bytes) with
    | Raise e => Raise e
    | Ok h1 =>
      match struct_pack_be 8 (len file_data) with
      | Raise e => Raise e
      | Ok h2 => Ok (h1 ++ name_bytes ++ h2 ++ file_data)
      end
    end
  end.

(** ** Effects: traces of events and a small exception monad *)

Inductive level : Type := INFO | ERROR.

(** The messages handed to [self.report]. *)
Inductive status : Type :=
| CodeLength          (* "Connection code must be 4 characters." *)
| NotDiscovered       (* "Could not discover headset on the network." *)
| NoSelection         (* "No objects selected." *)
| ActiveNotSelected   (* "Active object is not among the selected objects." *)
| NoDuplicates        (* "No duplicates created for export." *)
| ReadError (e : exn) (* f"Error reading temporary file: {e}" *)
| Started (ip : pystr) (* f"Model transfer started to {headset_ip}..." *).

(** The lines written with [print]. *)
Inductive console : Type :=
| WarnNoMesh (name : pystr)
| ReadErrorLine (e : exn)
| Broadcasting (code : pystr) (port : N)
| BroadcastFailed (e : exn)   (* f"Failed to send broadcast message: {e}" *)
| DiscoveryTimeout            (* "Discovery timeout reached." *)
| Discovered (ip : pystr)
| SocketTimedOut              (* "Socket timed out waiting for response." *)
| DiscoveryError (e : exn)    (* f"Error during discovery: {e}" *)
| Connecting (ip : pystr) (port : N)
| ConnectionEstablished
| DataSent
| TransferOk                  (* "Model transferred successfully." *)
| TransferFailed              (* "Failed to transfer model." *)
| ConnectionTimedOut          (* "Connection timed out." *)
| TransferError (e : exn)     (* f"Failed to transfer model: {e}" *).

Inductive event : Type :=
| Report (l : level) (s : status)
| Print (c : console)
| UdpSocket
| UdpSetTimeout (secs : N)
| UdpBind (port : N)
| UdpSetBroadcast
| UdpSendTo (data : bytes) (port : N)
| Clock
| UdpRecvFrom (bufsize : N)
| UdpClose
| TcpSocket
| TcpSetTimeout (secs : N)
| TcpConnect (ip : pystr) (port : N)
| TcpSendAll (packet : bytes)
| TcpRecv (bufsize : N)
| TcpClose
| ExportGlb (file_name : pystr) (objects : list pystr)
| ReadFile (file_name : pystr)
| RemoveFile (file_name : pystr)
| ThreadStart.

Definition trace := list event.

(** A computation: the events it performed, and its value or the exception
    that ended it. *)
Definition M (A : Type) : Type := (trace * result A)%type.

Definition ret {A} (a : A) : M A := ([], Ok a).

Definition bind {A B} (m : M A) (f : A -> M B) : M B :=
  match m with
  | (t, Ok a) => let (t', r) := f a in (t ++ t', r)
  | (t, Raise e) => (t, Raise e)
  end.

Notation "x <- m ;; k" := (bind m (fun x => k))
  (at level 61, m at next level, right associativity).
Notation "m ;; k" := (bind m (fun _ => k))
  (at level 61, right associativity).

Definition emit (ev : event) : M unit := ([ev], Ok tt).

Definition lift {A} (r : result A) : M A := ([], r).

(** A call to the outside world: it is attempted (and recorded) and either
    returns or raises, as the oracle [o] says. *)
Definition call (ev : event) (o : option exn) : M unit :=
  ([ev], match o with None => Ok tt | Some e => Raise e end).

Definition call_for {A} (ev : event) (r : result A) : M A := ([ev], r).

(** [try: m except Exception as e: h e]. *)
Definition try_except {A} (m : M A) (h : exn -> M A) : M A :=
  match m with
  | (t, Raise e) => let (t', r) := h e in (t ++ t', r)
  | (t, Ok a) => (t, Ok a)
  end.

Definition events {A} (m : M A) : trace := fst m.
Definition outcome {A} (m : M A) : result A := snd m.

(** ** [discover_headset] *)

Definition timeout : N := 5.
Definition listen_port : N := 5002.
Definition discovery_response : pystr := lit "Headset-Discovery-Response".

(** What one [sock.recvfrom(1024)] does. *)
Inductive recv_result : Type :=
| Datagram (data : bytes) (ip : pystr) (port : N)
| RecvRaise (e : exn).

(** The outside world as seen by one run of [discover_headset]: the outcome
    of each socket call, the clock reading of line 147, and for each turn
    of the loop the clock reading of line 150 and the outcome of the
    [recvfrom] of line 154.  After the listed turns the network is silent:
    the clock reads [clock_idle] and [recvfrom] raises [socket.timeout]. *)
Record udp_world : Type := {
  udp_socket_r : option exn;
  udp_bind_r : option exn;
  udp_setsockopt_r : option exn;
  udp_sendto_r : option exn;
  clock_start : Q;
  inbound : list (Q * recv_result);
  clock_idle : Q
}.

Inductive ctl : Type :=
| Continue
| Break
| Return (ip : pystr).

(** [elapsed_time > timeout] of line 151. *)
Definition expired (start now : Q) : bool :=
  negb (Qle_bool (now - start) (inject_Z (Z.of_N timeout))).

Definition recvfrom (r : recv_result) : M (bytes * pystr) :=
  call_for (UdpRecvFrom 1024)
    match r with
    | Datagram data ip _ => Ok (data, ip)
    | RecvRaise e => Raise e
    end.

(** One turn of the [while True] loop, lines 149-165. *)
Definition loop_body (start now : Q) (r : recv_result) : M ctl :=
  try_except
    (emit Clock ;;
     if expired start now then
       emit (Print DiscoveryTimeout) ;; ret Break
     else
       da <- recvfrom r ;;
       response <- lift (bytes_decode (fst da)) ;;
       if pystr_eqb response discovery_response then
         emit (Print (Discovered (snd da))) ;;
         emit UdpClose ;;
         ret (Return (snd da))
       else ret Continue)
    (fun e =>
       if is_socket_timeout e then
         emit (Print SocketTimedOut) ;; ret Break
       else
         emit (Print (DiscoveryError e)) ;; ret Break).

(** What follows one turn: the next turn, lines 167-168, or the [return]
    of line 159. *)
Definition after (c : ctl) (again : M (option pystr)) : M (option pystr) :=
  match c with
  | Continue => again
  | Break => emit UdpClose ;; ret None
  | Return ip => ret (Some ip)
  end.

Fixpoint listen (start : Q) (turns : list (Q * recv_result)) (idle : Q)
  : M (option pystr) :=
  match turns with
  | [] =>
    c <- loop_body start idle (RecvRaise SocketTimeout) ;;
    after c (emit UdpClose ;; ret None)
  | (now, r) :: rest =>
    c <- loop_body start now r ;;
    after c (listen start rest idle)
  end.

(** Lines 124-168.  The socket is created, given its timeout, bound and
    put in broadcast mode outside any [try]; only the broadcast itself is
    guarded (lines 138-144). *)
Definition discover_headset (w : udp_world) (discovery_port : N) (code : pystr)
  : M (option pystr) :=
  call UdpSocket (udp_socket_r w) ;;
  emit (UdpSetTimeout timeout) ;;
  call (UdpBind listen_port) (udp_bind_r w) ;;
  call UdpSetBroadcast (udp_setsockopt_r w) ;;
  sent <- try_except
            (data <- lift (str_encode code) ;;
             call (UdpSendTo data discovery_port) (udp_sendto_r w) ;;
             emit (Print (Broadcasting code discovery_port)) ;;
             ret true)
            (fun e =>
               emit (Print (BroadcastFailed e)) ;;
               emit UdpClose ;;
               ret false) ;;
  if sent : bool then
    emit Clock ;;
    listen (clock_start w) (inbound w) (clock_idle w)
  else ret None.

(** ** [send_data] *)

Record tcp_world : Type := {
  tcp_socket_r : option exn;
  tcp_connect_r : option exn;
  tcp_sendall_r : option exn;
  tcp_recv_r : result bytes
}.

(** Lines 170-198.  The packet is built before the [try]; [sock.close()]
    is the statement after [recv], inside the [try]; the two handlers only
    print. *)
Definition send_data (w : tcp_world)
  (file_data : bytes) (file_name headset_ip : pystr) (port : N) : M unit :=
  packet <- lift (make_packet file_data file_name) ;;
  try_except
    (call TcpSocket (tcp_socket_r w) ;;
     emit (TcpSetTimeout 30) ;;
     emit (Print (Connecting headset_ip port)) ;;
     call (TcpConnect headset_ip port) (tcp_connect_r w) ;;
     emit (Print ConnectionEstablished) ;;
     call (TcpSendAll packet) (tcp_sendall_r w) ;;
     emit (Print DataSent) ;;
     response <- call_for (TcpRecv 1024) (tcp_recv_r w) ;;
     emit TcpClose ;;
     text <- lift (bytes_decode response) ;;
     if pystr_eqb text (lit "Success") then emit (Print TransferOk)
     else emit (Print TransferFailed))
    (fun e =>
       if is_socket_timeout e then emit (Print ConnectionTimedOut)
       else emit (Print (TransferError e))).

(** ** [execute] *)

Record bobject : Type := { ob_id : N; ob_name : pystr }.

(** [TransferToHeadsetPreferences]. *)
Record preferences : Type := { port : Z; discovery_port : Z }.

Record context : Type := {
  headset_connection_code : pystr;
  selected_objects : list bobject;
  active : option bobject;
  addon_preferences : preferences
}.

(** The host application and the interpreter's Unicode tables: [str.upper]
    and [bpy.path.clean_name], and what each call of [execute] into Blender,
    the file system and the thread library does.  None of these calls is
    inside a [try], except the reading of the file.
    - [depsgraph_r]: [context.evaluated_depsgraph_get()], line 58;
    - [to_mesh]: [obj.evaluated_get] and [to_mesh()], lines 61-62, which
      raise or tell whether a mesh came out;
    - [copy_r]: making, placing and linking the copy, lines 67-74;
    - [export_r]: selecting the copies and [export_scene.gltf], lines 85-95;
    - [restore_r]: removing the copies and selecting the originals again,
      lines 98-105;
    - [read_r]: [open] and [read], lines 108-110;
    - [remove_r]: [os.remove], line 117;
    - [thread_r]: [threading.Thread(...).start()], line 120. *)
Record host : Type := {
  str_upper : pystr -> pystr;
  clean_name : pystr -> pystr;
  depsgraph_r : option exn;
  to_mesh : bobject -> result bool;
  copy_r : bobject -> option exn;
  export_r : option exn;
  restore_r : option exn;
  read_r : result bytes;
  remove_r : option exn;
  thread_r : option exn
}.

Inductive retcode : Type := FINISHED | CANCELLED.

(** The arguments given to the thread of line 120. *)
Record job : Type := {
  job_data : bytes;
  job_name : pystr;
  job_ip : pystr;
  job_port : N
}.

(** [active_object not in selected_objects]: Blender objects compare by
    identity. *)
Definition among (o : bobject) (l : list bobject) : bool :=
  existsb (fun x => ob_id x =? ob_id o) l.

(** A call into the scene: it leaves no event, and returns or raises. *)
Definition scene_call (o : option exn) : M unit :=
  lift match o with None => Ok tt | Some e => Raise e end.

(** The loop of lines 59-74. *)
Fixpoint duplicate (h : host) (objs : list bobject) : M (list pystr) :=
  match objs with
  | [] => ret []
  | o :: rest =>
    mesh <- lift (to_mesh h o) ;;
    if mesh : bool then
      scene_call (copy_r h o) ;;
      ds <- duplicate h rest ;;
      ret ((ob_name o ++ lit "_export") :: ds)
    else
      emit (Print (WarnNoMesh (ob_name o))) ;;
      duplicate h rest
  end.

Definition is_empty {A} (l : list A) : bool :=
  match l with [] => true | _ => false end.

Definition cancel (s : status) : M (retcode * option job) :=
  emit (Report ERROR s) ;; ret (CANCELLED, None).

(** Lines 23-122.  [if not headset_ip] also rejects an empty address.  The
    calls into the scene return or raise as the host says; the event
    [ExportGlb] stands for lines 85-95 and [ThreadStart] for line 120, both
    recorded when attempted. *)
Definition execute (h : host) (w : udp_world) (ctx : context)
  : M (retcode * option job) :=
  let code := str_upper h (strip (headset_connection_code ctx)) in
  if negb (len code =? 4) then cancel CodeLength
  else
    let port := 5000 in
    let discovery_port := 5001 in
    found <- discover_headset w discovery_port code ;;
    match found with
    | None => cancel NotDiscovered
    | Some headset_ip =>
      if is_empty headset_ip then cancel NotDiscovered
      else if is_empty (selected_objects ctx) then cancel NoSelection
      else match active ctx with
      | None => cancel ActiveNotSelected
      | Some active_object =>
        if negb (among active_object (selected_objects ctx))
        then cancel ActiveNotSelected
        else
          let file_name := clean_name h (ob_name active_object) ++ lit ".glb" in
          scene_call (depsgraph_r h) ;;
          duplicates <- duplicate h (selected_objects ctx) ;;
          if is_empty duplicates then cancel NoDuplicates
          else
            call (ExportGlb file_name duplicates) (export_r h) ;;
            scene_call (restore_r h) ;;
            rd <- try_except
                    (file_data <- call_for (ReadFile file_name) (read_r h) ;;
                     ret (Some file_data))
                    (fun e =>
                       emit (Print (ReadErrorLine e)) ;;
                       emit (Report ERROR (ReadError e)) ;;
                       ret None) ;;
            match rd with
            | None => ret (CANCELLED, None)
            | Some file_data =>
              call (RemoveFile file_name) (remove_r h) ;;
              call ThreadStart (thread_r h) ;;
              emit (Report INFO (Started headset_ip)) ;;
              ret (FINISHED,
                   Some {| job_data := file_data; job_name := file_name;
                           job_ip := headset_ip; job_port := port |})
            end
      end
    end.

(** One invocation of the operator: the caller's thread runs [execute];
    when it reaches line 120 a worker thread runs [send_data]. *)
Record run : Type := {
  main_thread : M (retcode * option job);
  worker_thread : option (M unit)
}.

Definition invoke (h : host) (uw : udp_world) (tw : tcp_world) (ctx : context)
  : run :=
  let m := execute h uw ctx in
  {| main_thread := m;
     worker_thread :=
       match outcome m with
       | Ok (_, Some j) =>
         Some (send_data tw (job_data j) (job_name j) (job_ip j) (job_port j))
       | _ => None
       end |}.

(** ** Observations on traces *)

Definition is_udp (ev : event) : bool :=
  match ev with
  | UdpSocket | UdpSetTimeout _ | UdpBind _ | UdpSetBroadcast
  | UdpSendTo _ _ | UdpRecvFrom _ | UdpClose => true
  | _ => false
  end.

Definition is_tcp (ev : event) : bool :=
  match ev with
  | TcpSocket | TcpSetTimeout _ | TcpConnect _ _ | TcpSendAll _
  | TcpRecv _ | TcpClose => true
  | _ => false
  end.

Definition is_network (ev : event) : bool := is_udp ev || is_tcp ev.

Definition network_calls (t : trace) : trace := filter is_network t.

Definition reports (t : trace) : list (level * status) :=
  flat_map (fun ev => match ev with Report l s => [(l, s)] | _ => [] end) t.

Definition printed (c : console) (t : trace) : Prop := In (Print c) t.

(** ** A concrete world, for examples *)

Definition ascii_upper (s : pystr) : pystr :=
  map (fun c => if (97 <=? c) && (c <=? 122) then c - 32 else c) s.

Definition demo_host : host :=
  {| str_upper := ascii_upper;
     clean_name := fun s => s;
     depsgraph_r := None;
     to_mesh := fun _ => Ok true;
     copy_r := fun _ => None;
     export_r := None;
     restore_r := None;
     read_r := Ok (blit "0123456789");
     remove_r := None;
     thread_r := None |}.

Definition chair : bobject := {| ob_id := 1; ob_name := lit "Chair" |}.

Definition demo_prefs : preferences := {| port := 5000; discovery_port := 5001 |}.

Definition demo_context : context :=
  {| headset_connection_code := lit "ab12";
     selected_objects := [chair];
     active := Some chair;
     addon_preferences := demo_prefs |}.

Definition headset_ip0 : pystr := lit "192.168.1.42".

Definition demo_udp : udp_world :=
  {| udp_socket_r := None; udp_bind_r := None; udp_setsockopt_r := None;
     udp_sendto_r := None;
     clock_start := 100%Q;
     inbound := [(100%Q, Datagram (blit "Headset-Discovery-Response") headset_ip0 5001)];
     clock_idle := 106%Q |}.

Definition demo_tcp : tcp_world :=
  {| tcp_socket_r := None; tcp_connect_r := None; tcp_sendall_r := None;
     tcp_recv_r := Ok (blit "Success") |}.

(** ** The acknowledgment *)

Definition acking (ack : bytes) : tcp_world :=
  {| tcp_socket_r := None; tcp_connect_r := None; tcp_sendall_r := None;
     tcp_recv_r := Ok ack |}.

(** ** The discovery loop *)

Definition response_bytes : bytes := blit "Headset-Discovery-Response".

(** The events [discover_headset] can perform when called with discovery
    port [dp]. *)
Definition discovery_event (dp : N) (ev : event) : bool :=
  match ev with
  | UdpSocket | UdpSetBroadcast | Clock | UdpRecvFrom _ | UdpClose
  | Print _ => true
  | UdpSetTimeout secs => secs =? 5
  | UdpBind p => p =? 5002
  | UdpSendTo _ p => p =? dp
  | _ => false
  end.

Definition prepend {A} (t : trace) (m : M A) : M A := (t ++ fst m, snd m).

Definition non_matching (turn : Q * recv_result) : Prop :=
  match snd turn with
  | Datagram data _ _ => data <> response_bytes
  | RecvRaise _ => True
  end.

(** ** [discover_headset], by cases on the socket set-up *)

Definition setup_ok (w : udp_world) : Prop :=
  udp_socket_r w = None /\ udp_bind_r w = None
  /\ udp_setsockopt_r w = None /\ udp_sendto_r w = None.

Definition preamble (data : bytes) (dp : N) (code : pystr) : trace :=
  [UdpSocket; UdpSetTimeout 5; UdpBind 5002; UdpSetBroadcast;
   UdpSendTo data dp; Print (Broadcasting code dp); Clock].

Definition receives (t : trace) : trace :=
  filter (fun ev => match ev with UdpRecvFrom _ => true | _ => false end) t.

(** ** Discovery with no matching datagram *)

(** The loop ended on a timeout: on its own clock check or on the socket's. *)
Definition waits_out_timeout {A} (m : M A) : Prop :=
  printed DiscoveryTimeout (events m) \/ printed SocketTimedOut (events m).

(** A datagram that carries some other well-formed text. *)
Definition other_text (turn : Q * recv_result) : Prop :=
  exists data ip p text,
    snd turn = Datagram data ip p
    /\ bytes_decode data = Ok text /\ data <> response_bytes.

Definition junk_udp : udp_world :=
  {| udp_socket_r := None; udp_bind_r := None; udp_setsockopt_r := None;
     udp_sendto_r := None;
     clock_start := 100%Q;
     inbound := [(100%Q, Datagram [xff] (lit "192.168.1.7") 40000);
                 (101%Q, Datagram (blit "hello") (lit "192.168.1.7") 40000)];
     clock_idle := 106%Q |}.

Definition chatter_udp : udp_world :=
  {| udp_socket_r := None; udp_bind_r := None; udp_setsockopt_r := None;
     udp_sendto_r := None;
     clock_start := 100%Q;
     inbound := [(101%Q, Datagram (blit "hello") (lit "192.168.1.7") 40000);
                 (104%Q, Datagram (blit "hello") (lit "192.168.1.7") 40000);
                 (106%Q, Datagram (blit "hello") (lit "192.168.1.7") 40000)];
     clock_idle := 111%Q |}.

(** ** What each method can do *)

(** The events [send_data] can perform for a given address and port. *)
Definition transfer_event (ip : pystr) (p : N) (ev : event) : bool :=
  match ev with
  | TcpSocket | TcpSendAll _ | TcpRecv _ | TcpClose | Print _ => true
  | TcpSetTimeout secs => secs =? 30
  | TcpConnect ip' p' => pystr_eqb ip' ip && (p' =? p)
  | _ => false
  end.

(** ** Failures that are not handled *)

Definition refusing_tcp : tcp_world :=
  {| tcp_socket_r := None; tcp_connect_r := Some (OSError 111);
     tcp_sendall_r := None; tcp_recv_r := Ok (blit "Success") |}.

Definition silent_tcp : tcp_world :=
  {| tcp_socket_r := None; tcp_connect_r := None;
     tcp_sendall_r := None; tcp_recv_r := Raise SocketTimeout |}.

(** ** [execute], by cases *)

Definition normalized_code (h : host) (ctx : context) : pystr :=
  str_upper h (strip (headset_connection_code ctx)).

Definition valid_code (h : host) (ctx : context) : bool :=
  len (normalized_code h ctx) =? 4.

Definition valid_selection (ctx : context) : bool :=
  negb (is_empty (selected_objects ctx))
  && match active ctx with
     | Some a => among a (selected_objects ctx)
     | None => false
     end.

(** The events of lines 38-122, which touch the scene, the temporary file,
    the console and the thread, but no socket and no report. *)
Definition glue_event (ev : event) : bool :=
  match ev with
  | Print _ | ExportGlb _ _ | ReadFile _ | RemoveFile _ | ThreadStart => true
  | _ => false
  end.

(** Lines 38-122: what [execute] does with a discovered address. *)
Definition export_and_start (h : host) (ctx : context) (headset_ip : pystr)
  : M (retcode * option job) :=
  if is_empty (selected_objects ctx) then cancel NoSelection
  else match active ctx with
  | None => cancel ActiveNotSelected
  | Some active_object =>
    if negb (among active_object (selected_objects ctx))
    then cancel ActiveNotSelected
    else
      let file_name := clean_name h (ob_name active_object) ++ lit ".glb" in
      scene_call (depsgraph_r h) ;;
      duplicates <- duplicate h (selected_objects ctx) ;;
      if is_empty duplicates then cancel NoDuplicates
      else
        call (ExportGlb file_name duplicates) (export_r h) ;;
        scene_call (restore_r h) ;;
        rd <- try_except
                (file_data <- call_for (ReadFile file_name) (read_r h) ;;
                 ret (Some file_data))
                (fun e =>
                   emit (Print (ReadErrorLine e)) ;;
                   emit (Report ERROR (ReadError e)) ;;
                   ret None) ;;
        match rd with
        | None => ret (CANCELLED, None)
        | Some file_data =>
          call (RemoveFile file_name) (remove_r h) ;;
          call ThreadStart (thread_r h) ;;
          emit (Report INFO (Started headset_ip)) ;;
          ret (FINISHED,
               Some {| job_data := file_data; job_name := file_name;
                       job_ip := headset_ip; job_port := 5000 |})
        end
  end.

(** How lines 38-122 end: with one error report and [CANCELLED], with the
    thread started, one info report and [FINISHED], or with the exception
    of [os.remove]. *)
Inductive ending (ip : pystr) : M (retcode * option job) -> Prop :=
| EndCancelled (t : trace) (s : status) :
    forallb glue_event t = true ->
    (forall a, s <> Started a) -> s <> CodeLength -> s <> NotDiscovered ->
    ending ip (t ++ [Report ERROR s], Ok (CANCELLED, None))
| EndStarted (t : trace) (data : bytes) (name : pystr) :
    forallb glue_event t = true ->
    ending ip (t ++ [ThreadStart; Report INFO (Started ip)],
               Ok (FINISHED,
                   Some {| job_data := data; job_name := name;
                           job_ip := ip; job_port := 5000 |}))
| EndRaised (t : trace) (e : exn) :
    forallb glue_event t = true ->
    ending ip (t, Raise e).

(** Every run of [execute] has one of four shapes. *)
Inductive shape (h : host) (w : udp_world) (ctx : context)
  : M (retcode * option job) -> Prop :=
| BadCode :
    valid_code h ctx = false ->
    shape h w ctx ([Report ERROR CodeLength], Ok (CANCELLED, None))
| DiscoveryRaised (td : trace) (e : exn) :
    valid_code h ctx = true ->
    discover_headset w 5001 (normalized_code h ctx) = (td, Raise e) ->
    shape h w ctx (td, Raise e)
| NothingFound (td : trace) (found : option pystr) :
    valid_code h ctx = true ->
    discover_headset w 5001 (normalized_code h ctx) = (td, Ok found) ->
    found = None \/ found = Some [] ->
    shape h w ctx (td ++ [Report ERROR NotDiscovered], Ok (CANCELLED, None))
| Found (td : trace) (c : N) (ip : pystr) :
    valid_code h ctx = true ->
    discover_headset w 5001 (normalized_code h ctx)
    = (td, Ok (Some (c :: ip))) ->
    ending (c :: ip) (export_and_start h ctx (c :: ip)) ->
    shape h w ctx (prepend td (export_and_start h ctx (c :: ip))).

(** ** Failures of the socket set-up *)

Definition busy_udp : udp_world :=
  {| udp_socket_r := None; udp_bind_r := Some (OSError 98);
     udp_setsockopt_r := None; udp_sendto_r := None;
     clock_start := 100%Q; inbound := []; clock_idle := 106%Q |}.

Definition unreachable_udp : udp_world :=
  {| udp_socket_r := None; udp_bind_r := None;
     udp_setsockopt_r := None; udp_sendto_r := Some (OSError 101);
     clock_start := 100%Q; inbound := []; clock_idle := 106%Q |}.

(** ** Validation and network I/O *)

Definition nothing_selected : context :=
  {| headset_connection_code := lit "ab12";
     selected_objects := [];
     active := None;
     addon_preferences := demo_prefs |}.

Definition blank_code : context :=
  {| headset_connection_code := lit "  ab1 ";
     selected_objects := [];
     active := None;
     addon_preferences := demo_prefs |}.

(** ** The two threads *)

(** What the caller's thread does once discovery is over. *)
Definition caller_event (ev : event) : bool :=
  glue_event ev || match ev with Report _ _ => true | _ => false end.

Definition passes_validation (h : host) (ctx : context) : bool :=
  valid_code h ctx && valid_selection ctx.

(** ** What the host is told *)

(** Everything reported to the host in one invocation, on either thread. *)
Definition all_reports (r : run) : list (level * status) :=
  reports (events (main_thread r))
  ++ match worker_thread r with
     | Some m => reports (events m)
     | None => []
     end.

(** The worker printed one of its failure lines. *)
Definition transfer_failed (r : run) : Prop :=
  exists m, worker_thread r = Some m
    /\ (printed TransferFailed (events m)
        \/ printed ConnectionTimedOut (events m)
        \/ exists e, printed (TransferError e) (events m)).

Definition failure_surfaced (r : run) : Prop :=
  exists s, In (ERROR, s) (all_reports r).

Definition rejecting_tcp : tcp_world :=
  {| tcp_socket_r := None; tcp_connect_r := None; tcp_sendall_r := None;
     tcp_recv_r := Ok (blit "Error") |}.

(** ** The preferences *)

(** Ports and timeouts as the source writes them. *)
Definition hardcoded (ev : event) : bool :=
  match ev with
  | UdpBind p => p =? 5002
  | UdpSendTo _ p => p =? 5001
  | UdpSetTimeout secs => secs =? 5
  | TcpConnect _ p => p =? 5000
  | TcpSetTimeout secs => secs =? 30
  | _ => true
  end.

Definition same_but_preferences (c1 c2 : context) : Prop :=
  headset_connection_code c1 = headset_connection_code c2
  /\ selected_objects c1 = selected_objects c2
  /\ active c1 = active c2.

Definition other_prefs_context : context :=
  {| headset_connection_code := lit "ab12";
     selected_objects := [chair];
     active := Some chair;
     addon_preferences := {| port := 6000; discovery_port := 6001 |} |}.

(** ** Further observations on discovery *)

Definition clock_reads (t : trace) : trace :=
  filter (fun ev => match ev with Clock => true | _ => false end) t.

Definition closes (t : trace) : trace :=
  filter (fun ev => match ev with UdpClose => true | _ => false end) t.

Definition broadcasts (t : trace) : trace :=
  filter (fun ev => match ev with UdpSendTo _ _ => true | _ => false end) t.

(** A turn of the loop whose clock reading is within the budget and whose
    datagram carries some other well-formed text. *)
Definition stray_in_time (start : Q) (turn : Q * recv_result) : Prop :=
  expired start (fst turn) = false /\ other_text turn.

(** What one turn of the loop can be. *)
Inductive turn_case (start now : Q) (r : recv_result) : M ctl -> Prop :=
| TurnExpired :
    expired start now = true ->
    turn_case start now r ([Clock; Print DiscoveryTimeout], Ok Break)
| TurnRaised (e : exn) (c : console) :
    expired start now = false ->
    r = RecvRaise e ->
    turn_case start now r ([Clock; UdpRecvFrom 1024; Print c], Ok Break)
| TurnMalformed (data : bytes) (ip : pystr) (p : N) :
    expired start now = false ->
    r = Datagram data ip p ->
    bytes_decode data = Raise UnicodeDecodeError ->
    turn_case start now r
      ([Clock; UdpRecvFrom 1024; Print (DiscoveryError UnicodeDecodeError)],
       Ok Break)
| TurnIgnored (data : bytes) (ip : pystr) (p : N) (text : pystr) :
    expired start now = false ->
    r = Datagram data ip p ->
    bytes_decode data = Ok text -> data <> response_bytes ->
    turn_case start now r ([Clock; UdpRecvFrom 1024], Ok Continue)
| TurnMatched (ip : pystr) (p : N) :
    expired start now = false ->
    r = Datagram response_bytes ip p ->
    turn_case start now r
      ([Clock; UdpRecvFrom 1024; Print (Discovered ip); UdpClose],
       Ok (Return ip)).

(** ** Further observations on the transfer *)

(** The four lines with which [send_data] says how the transfer ended. *)
Definition outcome_line (ev : event) : bool :=
  match ev with
  | Print TransferOk | Print TransferFailed | Print ConnectionTimedOut
  | Print (TransferError _) => true
  | _ => false
  end.

(** The first socket call of [send_data] that raises, if any. *)
Definition first_failure (w : tcp_world) : option exn :=
  match tcp_socket_r w, tcp_connect_r w, tcp_sendall_r w, tcp_recv_r w with
  | Some e, _, _, _ => Some e
  | None, Some e, _, _ => Some e
  | None, None, Some e, _ => Some e
  | None, None, None, Raise e => Some e
  | None, None, None, Ok _ => None
  end.

(** The socket calls of a complete transfer, in order. *)
Definition full_exchange (ip : pystr) (p : N) (pkt : bytes) : trace :=
  [TcpSocket; TcpSetTimeout 30; TcpConnect ip p; TcpSendAll pkt;
   TcpRecv 1024; TcpClose].

(** ** Further observations on [execute] *)

Definition all_spaces (s : pystr) : Prop :=
  Forall (fun c => is_space c = true) s.

Definition with_code (ctx : context) (code : pystr) : context :=
  {| headset_connection_code := code;
     selected_objects := selected_objects ctx;
     active := active ctx;
     addon_preferences := addon_preferences ctx |}.

Definition stool : bobject := {| ob_id := 2; ob_name := lit "Stool" |}.

Definition lamp : bobject := {| ob_id := 3; ob_name := lit "Lamp" |}.

(** What [duplicate] returns, without its trace: the names of the copies,
    or the exception of the first call of the loop that raises. *)
Fixpoint duplicated (h : host) (objs : list bobject) : result (list pystr) :=
  match objs with
  | [] => Ok []
  | o :: rest =>
    match to_mesh h o with
    | Raise e => Raise e
    | Ok false => duplicated h rest
    | Ok true =>
      match copy_r h o with
      | Some e => Raise e
      | None =>
        match duplicated h rest with
        | Ok ds => Ok ((ob_name o ++ lit "_export") :: ds)
        | Raise e => Raise e
        end
      end
    end
  end.

(** Every call of the loop of lines 59-74 returns for [o]. *)
Definition mesh_calls_return (h : host) (o : bobject) : Prop :=
  to_mesh h o = Ok false \/ (to_mesh h o = Ok true /\ copy_r h o = None).

Definition gives_mesh (h : host) (o : bobject) : bool :=
  match to_mesh h o with Ok true => true | _ => false end.


(** The first of the unguarded calls of lines 58-120 that raises, if any,
    in the order in which [execute] reaches them.  A failed read of the
    file is not among them: it is caught on line 111. *)
Definition first_raise (h : host) (ctx : context) : option exn :=
  match depsgraph_r h with
  | Some e => Some e
  | None =>
    match duplicated h (selected_objects ctx) with
    | Raise e => Some e
    | Ok [] => None
    | Ok (_ :: _) =>
      match export_r h with
      | Some e => Some e
      | None =>
        match restore_r h with
        | Some e => Some e
        | None =>
          match read_r h with
          | Raise _ => None
          | Ok _ =>
            match remove_r h with
            | Some e => Some e
            | None => thread_r h
            end
          end
        end
      end
    end
  end.

(** What lines 38-122 return, read as a decision table. *)
Definition verdict (h : host) (ctx : context) (ip : pystr)
  : result (retcode * option job) :=
  match active ctx with
  | Some a =>
    if valid_selection ctx then
      match first_raise h ctx with
      | Some e => Raise e
      | None =>
        match duplicated h (selected_objects ctx), read_r h with
        | Ok (_ :: _), Ok data =>
          Ok (FINISHED,
              Some {| job_data := data;
                      job_name := clean_name h (ob_name a) ++ lit ".glb";
                      job_ip := ip; job_port := 5000 |})
        | _, _ => Ok (CANCELLED, None)
        end
      end
    else Ok (CANCELLED, None)
  | None => Ok (CANCELLED, None)
  end.

(** What lines 38-122 report, in the order in which the checks are made. *)
Definition told (h : host) (ctx : context) (ip : pystr)
  : list (level * status) :=
  if is_empty (selected_objects ctx) then [(ERROR, NoSelection)]
  else if negb (valid_selection ctx) then [(ERROR, ActiveNotSelected)]
  else
    match first_raise h ctx with
    | Some _ => []
    | None =>
      match duplicated h (selected_objects ctx), read_r h with
      | Ok (_ :: _), Ok _ => [(INFO, Started ip)]
      | Ok (_ :: _), Raise e => [(ERROR, ReadError e)]
      | _, _ => [(ERROR, NoDuplicates)]
      end
    end.

(** ** Further worlds, for examples *)

(** A [connect] that the kernel gives up on: errno ETIMEDOUT. *)
Definition unanswered_tcp : tcp_world :=
  {| tcp_socket_r := None; tcp_connect_r := Some (OSError ETIMEDOUT);
     tcp_sendall_r := None; tcp_recv_r := Ok (blit "Success") |}.


Definition failing_export_host : host :=
  {| str_upper := ascii_upper;
     clean_name := fun s => s;
     depsgraph_r := None;
     to_mesh := fun _ => Ok true;
     copy_r := fun _ => None;
     export_r := Some RuntimeError;
     restore_r := None;
     read_r := Ok (blit "0123456789");
     remove_r := None;
     thread_r := None |}.

Definition late_answer_udp : udp_world :=
  {| udp_socket_r := None; udp_bind_r := None; udp_setsockopt_r := None;
     udp_sendto_r := None;
     clock_start := 100%Q;
     inbound := [(101%Q, Datagram (blit "hello") (lit "192.168.1.7") 40000);
                 (103%Q, Datagram response_bytes headset_ip0 5001);
                 (104%Q, Datagram response_bytes (lit "192.168.1.50") 5001)];
     clock_idle := 111%Q |}.

Definition too_late_udp : udp_world :=
  {| udp_socket_r := None; udp_bind_r := None; udp_setsockopt_r := None;
     udp_sendto_r := None;
     clock_start := 100%Q;
     inbound := [(101%Q, Datagram (blit "hello") (lit "192.168.1.7") 40000);
                 (106%Q, Datagram response_bytes headset_ip0 5001)];
     clock_idle := 111%Q |}.

Definition two_selected : context :=
  {| headset_connection_code := lit "ab12";
     selected_objects := [chair; stool];
     active := Some lamp;
     addon_preferences := demo_prefs |}.

(** * Properties *)

(** ** Normalizing the pairing code *)

Example strip_ex : strip (lit "  ab12 ") = lit "ab12".
Proof. reflexivity. Qed.

Example normalized_code_ex :
  normalized_code demo_host demo_context = lit "AB12".
Proof. reflexivity. Qed.

(** ** Bytes and big-endian fields *)

Lemma byte_of_N_value (n : N) : Byte.to_N (byte_of_N n) = n mod 256.
Proof.
  unfold byte_of_N.
  assert (E : N.land n 255 = n mod 256) by (apply (N.land_ones n 8)).
  rewrite E.
  destruct (Byte.of_N (n mod 256)) as [b|] eqn:Hb.
  - now apply Byte.to_of_N.
  - apply Byte.of_N_None_iff in Hb.
    pose proof (N.mod_upper_bound n 256). lia.
Qed.

Lemma byte_of_to_N (b : byte) : byte_of_N (Byte.to_N b) = b.
Proof.
  unfold byte_of_N.
  assert (E : N.land (Byte.to_N b) 255 = Byte.to_N b).
  { change 255 with (N.ones 8). rewrite N.land_ones.
    apply N.mod_small. pose proof (Byte.to_N_bounded b). simpl. lia. }
  rewrite E, Byte.of_to_N. reflexivity.
Qed.

Lemma be_bytes_length (w : nat) (n : N) : List.length (be_bytes w n) = w.
Proof. induction w; simpl; congruence. Qed.

Lemma be_fold_acc (bs : bytes) (acc : N) :
  fold_left (fun a b => a * 256 + Byte.to_N b) bs acc
  = acc * 256 ^ len bs + be_value bs.
Proof.
  unfold be_value, len. revert acc.
  induction bs as [|b bs IH]; intro acc.
  - simpl. lia.
  - cbn [fold_left List.length].
    rewrite IH, (IH (0 * 256 + Byte.to_N b)).
    rewrite Nat2N.inj_succ, N.pow_succ_r'. lia.
Qed.

Lemma be_value_be_bytes (w : nat) (n : N) :
  be_value (be_bytes w n) = n mod 2 ^ (8 * N.of_nat w).
Proof.
  induction w as [|w IH].
  - simpl. now rewrite N.mod_1_r.
  - cbn [be_bytes]. unfold be_value. cbn [fold_left].
    rewrite be_fold_acc, IH. unfold len. rewrite be_bytes_length.
    rewrite byte_of_N_value, N.shiftr_div_pow2.
    replace (8 * N.of_nat (S w)) with (8 * N.of_nat w + 8) by lia.
    rewrite N.pow_add_r.
    replace (256 ^ N.of_nat w) with (2 ^ (8 * N.of_nat w))
      by (rewrite N.pow_mul_r; reflexivity).
    change (2 ^ 8) with 256.
    assert (P : 2 ^ (8 * N.of_nat w) <> 0) by (apply N.pow_nonzero; lia).
    rewrite (N.Div0.mod_mul_r n (2 ^ (8 * N.of_nat w)) 256). lia.
Qed.

Lemma struct_pack_be_spec (w : nat) (n : N) :
  n < 2 ^ (8 * N.of_nat w) ->
  exists h, struct_pack_be w n = Ok h
            /\ List.length h = w /\ be_value h = n.
Proof.
  intro H. unfold struct_pack_be.
  apply N.ltb_lt in H. rewrite H. apply N.ltb_lt in H.
  exists (be_bytes w n). split; [reflexivity|]. split.
  - apply be_bytes_length.
  - rewrite be_value_be_bytes. now apply N.mod_small.
Qed.

(** ** The transfer message *)

(** Unfolding the monad, and splitting on what the world answers. *)
Ltac mred :=
  cbv beta iota delta
    [bind ret emit lift call call_for scene_call try_except events outcome
     fst snd].

Ltac mcase :=
  match goal with
  | |- context [if ?c then _ else _] =>
    lazymatch c with
    | context [match _ with _ => _ end] => fail
    | _ => destruct c eqn:?
    end
  | |- context [match ?c with Ok _ => _ | Raise _ => _ end] =>
    lazymatch c with
    | context [match _ with _ => _ end] => fail
    | _ => destruct c eqn:?
    end
  | |- context [match ?c with Some _ => _ | None => _ end] =>
    lazymatch c with
    | context [match _ with _ => _ end] => fail
    | _ => destruct c eqn:?
    end
  end.

Ltac mrun := mred; repeat (mcase; mred).

Lemma send_data_writes (w : tcp_world) (payload : bytes)
  (file_name ip : pystr) (p : N) (pkt : bytes) :
  make_packet payload file_name = Ok pkt ->
  tcp_socket_r w = None -> tcp_connect_r w = None ->
  In (TcpSendAll pkt) (events (send_data w payload file_name ip p)).
Proof.
  intros Hp Hs Hc. unfold send_data. rewrite Hp, Hs, Hc.
  mrun; simpl; auto 10.
Qed.

Lemma firstn_prefix {A} (a b : list A) (n : nat) :
  List.length a = n -> firstn n (a ++ b) = a.
Proof.
  intros <-. rewrite firstn_app, Nat.sub_diag, firstn_all.
  simpl. apply app_nil_r.
Qed.

Lemma skipn_prefix {A} (a b : list A) (n : nat) :
  List.length a = n -> skipn n (a ++ b) = b.
Proof.
  intros <-. rewrite skipn_app, Nat.sub_diag, skipn_all. reflexivity.
Qed.

(** C1. Whenever the name has a UTF-8 encoding and both lengths fit their
    fields, the message built by [send_data] is a 4-byte header, the name
    bytes, an 8-byte header and the payload, in this order; read as
    big-endian numbers the headers are the byte length of the name and of
    the payload; and this is the message handed to [sendall]. *)
Theorem C1_packet_layout (file_name : pystr) (payload name_bytes : bytes) :
  utf8_encode file_name = Some name_bytes ->
  len name_bytes < 2 ^ 32 ->
  len payload < 2 ^ 64 ->
  exists h1 h2 pkt,
    make_packet payload file_name = Ok pkt
    /\ pkt = h1 ++ name_bytes ++ h2 ++ payload
    /\ List.length h1 = 4%nat /\ be_value h1 = len name_bytes
    /\ List.length h2 = 8%nat /\ be_value h2 = len payload
    /\ len pkt = 4 + len name_bytes + 8 + len payload
    /\ firstn 4 pkt = h1
    /\ firstn 8 (skipn (4 + List.length name_bytes) pkt) = h2
    /\ forall w ip p, tcp_socket_r w = None -> tcp_connect_r w = None ->
         In (TcpSendAll pkt) (events (send_data w payload file_name ip p)).
Proof.
  intros Henc Hn Hp.
  destruct (struct_pack_be_spec 4 (len name_bytes) Hn) as (h1 & E1 & L1 & V1).
  destruct (struct_pack_be_spec 8 (len payload) Hp) as (h2 & E2 & L2 & V2).
  assert (Hpk : make_packet payload file_name
                = Ok (h1 ++ name_bytes ++ h2 ++ payload)).
  { unfold make_packet, str_encode. now rewrite Henc, E1, E2. }
  exists h1, h2, (h1 ++ name_bytes ++ h2 ++ payload).
  repeat split; auto.
  - unfold len. rewrite !length_app, L1, L2. lia.
  - apply (firstn_prefix h1 _ 4 L1).
  - rewrite app_assoc.
    rewrite (skipn_prefix (h1 ++ name_bytes))
      by (rewrite length_app, L1; reflexivity).
    apply (firstn_prefix h2 _ 8 L2).
  - intros w ip p. now apply send_data_writes.
Qed.

(** Scenario B: "Chair.glb" and a 10-byte payload give 31 bytes, of which
    the first four read 9 and bytes 14 to 21 read 10. *)
Lemma C1_packet_layout_witness :
  exists pkt,
    make_packet (blit "0123456789") (lit "Chair.glb") = Ok pkt
    /\ len pkt = 31
    /\ be_value (firstn 4 pkt) = 9
    /\ be_value (firstn 8 (skipn 13 pkt)) = 10.
Proof.
  destruct (C1_packet_layout (lit "Chair.glb") (blit "0123456789")
              (blit "Chair.glb") eq_refl eq_refl eq_refl)
    as (h1 & h2 & pkt & E & _ & _ & V1 & _ & V2 & L & F1 & F2 & _).
  exists pkt. split; [exact E|]. split; [exact L|]. split.
  - rewrite F1. exact V1.
  - change 13%nat with (4 + List.length (blit "Chair.glb"))%nat.
    rewrite F2. exact V2.
Defined.

(** ** Decoding ASCII text *)

Lemma option_map_cons_inv (c d : N) (s : pystr) (o : option pystr) :
  option_map (cons d) o = Some (c :: s) -> d = c /\ o = Some s.
Proof. destruct o; simpl; intro H; inversion H; auto. Qed.

Lemma option_map_cons_not_nil (d : N) (o : option pystr) :
  option_map (cons d) o <> Some [].
Proof. destruct o; discriminate. Qed.

Lemma utf8_decode_not_nil (x : byte) (r : bytes) :
  utf8_decode (x :: r) <> Some [].
Proof.
  intro H. cbn [utf8_decode] in H. cbv zeta in H.
  destruct (Byte.to_N x <? 128).
  { now apply option_map_cons_not_nil in H. }
  destruct r as [|x1 r1]; [discriminate|].
  destruct (negb (is_cont (Byte.to_N x1))); [discriminate|].
  destruct ((192 <=? Byte.to_N x) && (Byte.to_N x <? 224)).
  { destruct (128 <=? cp2 (Byte.to_N x) (Byte.to_N x1)); [|discriminate].
    now apply option_map_cons_not_nil in H. }
  destruct r1 as [|x2 r2]; [discriminate|].
  destruct (negb (is_cont (Byte.to_N x2))); [discriminate|].
  destruct ((224 <=? Byte.to_N x) && (Byte.to_N x <? 240)).
  { destruct ((2048 <=? cp3 (Byte.to_N x) (Byte.to_N x1) (Byte.to_N x2))
              && negb (is_surrogate (cp3 (Byte.to_N x) (Byte.to_N x1)
                                         (Byte.to_N x2)))); [|discriminate].
    now apply option_map_cons_not_nil in H. }
  destruct r2 as [|x3 r3]; [discriminate|].
  destruct (negb (is_cont (Byte.to_N x3))); [discriminate|].
  destruct ((240 <=? Byte.to_N x) && (Byte.to_N x <? 248)); [|discriminate].
  destruct ((65536 <=? cp4 (Byte.to_N x) (Byte.to_N x1) (Byte.to_N x2)
                           (Byte.to_N x3))
            && (cp4 (Byte.to_N x) (Byte.to_N x1) (Byte.to_N x2)
                    (Byte.to_N x3) <? 1114112)); [|discriminate].
  now apply option_map_cons_not_nil in H.
Qed.

(** A code point below 128 can only come from the single byte of the same
    value: the longer forms are rejected unless they denote at least 128. *)
Lemma utf8_decode_ascii_head (bs : bytes) (c : N) (s : pystr) :
  c < 128 ->
  utf8_decode bs = Some (c :: s) ->
  exists x r, bs = x :: r /\ Byte.to_N x = c /\ utf8_decode r = Some s.
Proof.
  intros Hc H. destruct bs as [|x0 r0]; [discriminate|].
  cbn [utf8_decode] in H. cbv zeta in H.
  destruct (Byte.to_N x0 <? 128) eqn:E0.
  { apply option_map_cons_inv in H as [<- H]. eauto. }
  exfalso.
  destruct r0 as [|x1 r1]; [discriminate|].
  destruct (negb (is_cont (Byte.to_N x1))); [discriminate|].
  destruct ((192 <=? Byte.to_N x0) && (Byte.to_N x0 <? 224)).
  { destruct (128 <=? cp2 (Byte.to_N x0) (Byte.to_N x1)) eqn:E; [|discriminate].
    apply option_map_cons_inv in H as [<- _]. apply N.leb_le in E. lia. }
  destruct r1 as [|x2 r2]; [discriminate|].
  destruct (negb (is_cont (Byte.to_N x2))); [discriminate|].
  destruct ((224 <=? Byte.to_N x0) && (Byte.to_N x0 <? 240)).
  { destruct ((2048 <=? cp3 (Byte.to_N x0) (Byte.to_N x1) (Byte.to_N x2))
              && negb (is_surrogate (cp3 (Byte.to_N x0) (Byte.to_N x1)
                                         (Byte.to_N x2)))) eqn:E;
      [|discriminate].
    apply option_map_cons_inv in H as [<- _].
    apply andb_true_iff in E as [E _]. apply N.leb_le in E. lia. }
  destruct r2 as [|x3 r3]; [discriminate|].
  destruct (negb (is_cont (Byte.to_N x3))); [discriminate|].
  destruct ((240 <=? Byte.to_N x0) && (Byte.to_N x0 <? 248)); [|discriminate].
  destruct ((65536 <=? cp4 (Byte.to_N x0) (Byte.to_N x1) (Byte.to_N x2)
                           (Byte.to_N x3))
            && (cp4 (Byte.to_N x0) (Byte.to_N x1) (Byte.to_N x2)
                    (Byte.to_N x3) <? 1114112)) eqn:E; [|discriminate].
  apply option_map_cons_inv in H as [<- _].
  apply andb_true_iff in E as [E _]. apply N.leb_le in E. lia.
Qed.

Lemma utf8_decode_ascii (s : pystr) :
  Forall (fun c => c < 128) s ->
  forall bs, utf8_decode bs = Some s <-> bs = map byte_of_N s.
Proof.
  induction 1 as [|c s Hc Hs IH]; intro bs.
  - split.
    + destruct bs as [|x r]; [reflexivity|].
      intro H. now apply utf8_decode_not_nil in H.
    + intros ->. reflexivity.
  - split.
    + intro H.
      destruct (utf8_decode_ascii_head bs c s Hc H) as (x & r & -> & Hx & Hr).
      apply IH in Hr. subst r. cbn [map]. f_equal.
      rewrite <- Hx. symmetry. apply byte_of_to_N.
    + intros ->. cbn [map utf8_decode]. cbv zeta.
      rewrite byte_of_N_value, N.mod_small by lia.
      apply N.ltb_lt in Hc. rewrite Hc.
      rewrite (proj2 (IH _) eq_refl). reflexivity.
Qed.

Lemma ascii_below_128 (s : pystr) :
  forallb (fun c => c <? 128) s = true -> Forall (fun c => c < 128) s.
Proof.
  intro H. apply Forall_forall. intros c Hin.
  rewrite forallb_forall in H. apply N.ltb_lt. now apply H.
Qed.

(** The only bytes that decode to "Success" are [b"Success"]. *)
Lemma decodes_to_success (bs : bytes) :
  bytes_decode bs = Ok (lit "Success") <-> bs = blit "Success".
Proof.
  unfold bytes_decode.
  pose proof (utf8_decode_ascii (lit "Success")
                (ascii_below_128 (lit "Success") eq_refl) bs) as H.
  change (map byte_of_N (lit "Success")) with (blit "Success") in H.
  destruct (utf8_decode bs) as [t|]; split; intro E.
  - apply H. congruence.
  - apply H in E. congruence.
  - discriminate.
  - apply H in E. discriminate.
Qed.

(** The only bytes that decode to the discovery response are its ASCII
    bytes. *)
Lemma decodes_to_response (bs : bytes) :
  bytes_decode bs = Ok discovery_response
  <-> bs = blit "Headset-Discovery-Response".
Proof.
  unfold bytes_decode.
  pose proof (utf8_decode_ascii discovery_response
                (ascii_below_128 discovery_response eq_refl) bs) as H.
  change (map byte_of_N discovery_response)
    with (blit "Headset-Discovery-Response") in H.
  destruct (utf8_decode bs) as [t|]; split; intro E.
  - apply H. congruence.
  - apply H in E. congruence.
  - discriminate.
  - apply H in E. discriminate.
Qed.

Lemma pystr_eqb_eq (a b : pystr) : pystr_eqb a b = true <-> a = b.
Proof.
  unfold pystr_eqb. destruct (list_eq_dec N.eq_dec a b); split;
    intros; congruence.
Qed.

Lemma pystr_eqb_refl (a : pystr) : pystr_eqb a a = true.
Proof. now apply pystr_eqb_eq. Qed.

(** ** The acknowledgment *)

(** The trace of [send_data] once the connection is up, the packet written
    and [ack] read: by cases on what [ack] decodes to. *)
Lemma send_data_acked (w : tcp_world) (payload : bytes)
  (file_name ip : pystr) (p : N) (pkt ack : bytes) :
  make_packet payload file_name = Ok pkt ->
  tcp_socket_r w = None -> tcp_connect_r w = None ->
  tcp_sendall_r w = None -> tcp_recv_r w = Ok ack ->
  send_data w payload file_name ip p
  = ([TcpSocket; TcpSetTimeout 30; Print (Connecting ip p); TcpConnect ip p;
      Print ConnectionEstablished; TcpSendAll pkt; Print DataSent;
      TcpRecv 1024; TcpClose;
      Print match bytes_decode ack with
            | Ok text => if pystr_eqb text (lit "Success")
                         then TransferOk else TransferFailed
            | Raise e => TransferError e
            end],
     Ok tt).
Proof.
  intros Hp Hs Hc Hw Hr. unfold send_data. rewrite Hp, Hs, Hc, Hw, Hr.
  mred. unfold bytes_decode.
  destruct (utf8_decode ack) as [text|]; mred.
  - destruct (pystr_eqb text (lit "Success")); reflexivity.
  - reflexivity.
Qed.

Ltac in_trace :=
  unfold printed, events in *; simpl in *;
  repeat match goal with
         | H : _ \/ _ |- _ => destruct H
         | H : False |- _ => destruct H
         | H : @eq event _ _ |- _ => discriminate H
         end.

(** C5. Once an acknowledgment has been read, [send_data] prints
    "Model transferred successfully." exactly when the bytes decode to the
    text "Success", that is exactly when they are [b"Success"]; for any
    other bytes it prints one of the two failure lines instead. *)
Theorem C5_ack_success_iff (w : tcp_world) (payload : bytes)
  (file_name ip : pystr) (p : N) (pkt ack : bytes) :
  make_packet payload file_name = Ok pkt ->
  tcp_socket_r w = None -> tcp_connect_r w = None ->
  tcp_sendall_r w = None -> tcp_recv_r w = Ok ack ->
  let t := events (send_data w payload file_name ip p) in
  (printed TransferOk t <-> bytes_decode ack = Ok (lit "Success"))
  /\ (bytes_decode ack = Ok (lit "Success") <-> ack = blit "Success")
  /\ (ack <> blit "Success" ->
      ~ printed TransferOk t
      /\ (printed TransferFailed t
          \/ printed (TransferError UnicodeDecodeError) t)).
Proof.
  intros Hp Hs Hc Hw Hr t. subst t.
  rewrite (send_data_acked w payload file_name ip p pkt ack Hp Hs Hc Hw Hr).
  unfold events, printed. cbn [fst].
  assert (K : In (Print TransferOk)
                [TcpSocket; TcpSetTimeout 30; Print (Connecting ip p);
                 TcpConnect ip p; Print ConnectionEstablished; TcpSendAll pkt;
                 Print DataSent; TcpRecv 1024; TcpClose;
                 Print match bytes_decode ack with
                       | Ok text => if pystr_eqb text (lit "Success")
                                    then TransferOk else TransferFailed
                       | Raise e => TransferError e
                       end]
              <-> bytes_decode ack = Ok (lit "Success")).
  { unfold bytes_decode. destruct (utf8_decode ack) as [text|].
    - destruct (pystr_eqb text (lit "Success")) eqn:E.
      + apply pystr_eqb_eq in E. subst text. split; [reflexivity|].
        intros _. simpl. tauto.
      + split.
        * intro H. in_trace.
        * intro H. inversion H. subst text.
          rewrite pystr_eqb_refl in E. discriminate.
    - split; [intro H; in_trace | discriminate]. }
  split; [exact K|]. split; [apply decodes_to_success|].
  intro Ne. split.
  - intro H. apply K in H. apply decodes_to_success in H. contradiction.
  - unfold bytes_decode. destruct (utf8_decode ack) as [text|] eqn:D.
    + destruct (pystr_eqb text (lit "Success")) eqn:E.
      * apply pystr_eqb_eq in E. subst text. exfalso. apply Ne.
        apply decodes_to_success. unfold bytes_decode. now rewrite D.
      * left. simpl. tauto.
    + right. simpl. tauto.
Qed.

(** Scenario C: [b"Success"] succeeds; [b""], [b"Error"] and the malformed
    byte [0xff] fail. *)
Lemma C5_ack_success_iff_witness :
  let run ack :=
    events (send_data (acking ack) (blit "0123456789") (lit "Chair.glb")
              headset_ip0 5000) in
  printed TransferOk (run (blit "Success"))
  /\ ~ printed TransferOk (run (blit ""))
  /\ ~ printed TransferOk (run (blit "Error"))
  /\ ~ printed TransferOk (run [xff]).
Proof.
  pose (pkt := be_bytes 4 9 ++ blit "Chair.glb" ++ be_bytes 8 10
               ++ blit "0123456789").
  assert (Hp : make_packet (blit "0123456789") (lit "Chair.glb") = Ok pkt)
    by reflexivity.
  intro run. repeat split.
  - apply (C5_ack_success_iff (acking (blit "Success")) _ _ headset_ip0 5000
             pkt (blit "Success") Hp eq_refl eq_refl eq_refl eq_refl).
    reflexivity.
  - apply (C5_ack_success_iff (acking (blit "")) _ _ headset_ip0 5000
             pkt (blit "") Hp eq_refl eq_refl eq_refl eq_refl).
    discriminate.
  - apply (C5_ack_success_iff (acking (blit "Error")) _ _ headset_ip0 5000
             pkt (blit "Error") Hp eq_refl eq_refl eq_refl eq_refl).
    discriminate.
  - apply (C5_ack_success_iff (acking [xff]) _ _ headset_ip0 5000
             pkt [xff] Hp eq_refl eq_refl eq_refl eq_refl).
    discriminate.
Defined.

(** ** The discovery loop *)

Lemma loop_body_expired (start now : Q) (r : recv_result) :
  expired start now = true ->
  loop_body start now r = ([Clock; Print DiscoveryTimeout], Ok Break).
Proof. intro E. unfold loop_body. mred. rewrite E. reflexivity. Qed.

Lemma loop_body_raise (start now : Q) (e : exn) :
  expired start now = false ->
  loop_body start now (RecvRaise e)
  = ([Clock; UdpRecvFrom 1024;
      Print (if is_socket_timeout e then SocketTimedOut else DiscoveryError e)],
     Ok Break).
Proof.
  intro E. unfold loop_body, recvfrom. mred. rewrite E. mred.
  destruct (is_socket_timeout e); reflexivity.
Qed.

Lemma loop_body_match (start now : Q) (ip : pystr) (p : N) :
  expired start now = false ->
  loop_body start now (Datagram response_bytes ip p)
  = ([Clock; UdpRecvFrom 1024; Print (Discovered ip); UdpClose],
     Ok (Return ip)).
Proof. intro E. unfold loop_body, recvfrom. mred. rewrite E. reflexivity. Qed.

Lemma loop_body_ignore (start now : Q) (data : bytes) (ip : pystr) (p : N)
  (text : pystr) :
  expired start now = false ->
  bytes_decode data = Ok text ->
  data <> response_bytes ->
  loop_body start now (Datagram data ip p)
  = ([Clock; UdpRecvFrom 1024], Ok Continue).
Proof.
  intros E D Ne. unfold loop_body, recvfrom. mred. rewrite E. mred.
  rewrite D. mred.
  destruct (pystr_eqb text discovery_response) eqn:X; [|reflexivity].
  apply pystr_eqb_eq in X. subst text.
  apply decodes_to_response in D. contradiction.
Qed.

Lemma loop_body_malformed (start now : Q) (data : bytes) (ip : pystr) (p : N)
  (e : exn) :
  expired start now = false ->
  bytes_decode data = Raise e ->
  loop_body start now (Datagram data ip p)
  = ([Clock; UdpRecvFrom 1024; Print (DiscoveryError UnicodeDecodeError)],
     Ok Break).
Proof.
  intros E D. unfold loop_body, recvfrom. mred. rewrite E. mred.
  unfold bytes_decode in *. destruct (utf8_decode data); [discriminate|].
  reflexivity.
Qed.

(** A turn of the loop never raises, and it returns an address only for the
    response bytes. *)
Lemma loop_body_cases (start now : Q) (r : recv_result) :
  exists t c, loop_body start now r = (t, Ok c)
    /\ (forall dp, forallb (discovery_event dp) t = true)
    /\ (forall a, c = Return a ->
          exists p, r = Datagram response_bytes a p
                    /\ expired start now = false)
    /\ (c = Continue -> exists data a p, r = Datagram data a p).
Proof.
  destruct (expired start now) eqn:E.
  { rewrite loop_body_expired by assumption.
    do 2 eexists. split; [reflexivity|]. split; [reflexivity|]. split; [intros a H|intro H];
      discriminate. }
  destruct r as [data a p|e].
  - destruct (bytes_decode data) as [text|e] eqn:D.
    + destruct (list_eq_dec Byte.byte_eq_dec data response_bytes) as [->|Ne].
      * rewrite loop_body_match by assumption.
        do 2 eexists. split; [reflexivity|]. split; [reflexivity|]. split.
        -- intros a' H. inversion H. subst. eauto.
        -- discriminate.
      * rewrite (loop_body_ignore _ _ _ _ _ text) by assumption.
        do 2 eexists. split; [reflexivity|]. split; [reflexivity|]. split.
        -- discriminate.
        -- eauto.
    + rewrite (loop_body_malformed _ _ _ _ _ e) by assumption.
      do 2 eexists. split; [reflexivity|]. split; [reflexivity|]. split; [intros a' H|intro H];
        discriminate.
  - rewrite loop_body_raise by assumption.
    do 2 eexists. split; [reflexivity|]. split; [reflexivity|]. split; [intros a' H|intro H];
      discriminate.
Qed.

Lemma bind_ok {A B} (t : trace) (a : A) (f : A -> M B) :
  bind (t, Ok a) f = prepend t (f a).
Proof. unfold bind, prepend. destruct (f a). reflexivity. Qed.

Lemma listen_cons (start now idle : Q) (r : recv_result)
  (rest : list (Q * recv_result)) (t : trace) (c : ctl) :
  loop_body start now r = (t, Ok c) ->
  listen start ((now, r) :: rest) idle
  = prepend t (after c (listen start rest idle)).
Proof.
  intro H. cbn [listen]. rewrite H.
  exact (bind_ok t c (fun c => after c (listen start rest idle))).
Qed.

(** A received datagram with another, well-formed text is skipped: the loop
    goes on with the start time it had. *)
Lemma listen_ignore (start now idle : Q) (data : bytes) (ip : pystr) (p : N)
  (text : pystr) (rest : list (Q * recv_result)) :
  expired start now = false ->
  bytes_decode data = Ok text ->
  data <> response_bytes ->
  listen start ((now, Datagram data ip p) :: rest) idle
  = prepend [Clock; UdpRecvFrom 1024] (listen start rest idle).
Proof.
  intros E D Ne.
  now rewrite (listen_cons _ _ _ _ _ _ _ (loop_body_ignore _ _ _ _ _ _ E D Ne)).
Qed.

(** Once the clock reads more than [timeout] past the start, the loop ends
    without another receive. *)
Lemma listen_expired (start now idle : Q) (r : recv_result)
  (rest : list (Q * recv_result)) :
  expired start now = true ->
  listen start ((now, r) :: rest) idle
  = ([Clock; Print DiscoveryTimeout; UdpClose], Ok None).
Proof.
  intro E. now rewrite (listen_cons _ _ _ _ _ _ _ (loop_body_expired _ _ r E)).
Qed.

(** Bytes that are not UTF-8 end the loop at once. *)
Lemma listen_malformed (start now idle : Q) (data : bytes) (ip : pystr)
  (p : N) (e : exn) (rest : list (Q * recv_result)) :
  expired start now = false ->
  bytes_decode data = Raise e ->
  listen start ((now, Datagram data ip p) :: rest) idle
  = ([Clock; UdpRecvFrom 1024; Print (DiscoveryError UnicodeDecodeError);
      UdpClose], Ok None).
Proof.
  intros E D.
  now rewrite (listen_cons _ _ _ _ _ _ _ (loop_body_malformed _ _ _ _ _ _ E D)).
Qed.

Lemma listen_match (start now idle : Q) (ip : pystr) (p : N)
  (rest : list (Q * recv_result)) :
  expired start now = false ->
  listen start ((now, Datagram response_bytes ip p) :: rest) idle
  = ([Clock; UdpRecvFrom 1024; Print (Discovered ip); UdpClose],
     Ok (Some ip)).
Proof.
  intro E. now rewrite (listen_cons _ _ _ _ _ _ _ (loop_body_match _ _ ip p E)).
Qed.

(** With no matching datagram the loop ends, closes the socket and gives no
    address. *)
Lemma listen_no_match (start idle : Q) (turns : list (Q * recv_result)) :
  Forall non_matching turns ->
  exists t, listen start turns idle = (t ++ [UdpClose], Ok None).
Proof.
  induction 1 as [|[now r] rest Hn _ IH].
  - cbn [listen].
    destruct (loop_body_cases start idle (RecvRaise SocketTimeout))
      as (t & c & E & _ & Hr & Hc).
    rewrite E, bind_ok. destruct c as [| |a].
    + destruct (Hc eq_refl) as (? & ? & ? & X). discriminate.
    + exists t. reflexivity.
    + destruct (Hr a eq_refl) as (? & X & _). discriminate.
  - destruct (loop_body_cases start now r) as (t & c & E & _ & Hr & Hc).
    rewrite (listen_cons _ _ _ _ _ _ _ E). destruct c as [| |a].
    + destruct IH as (t' & ->). exists (t ++ t').
      unfold prepend, after. simpl. now rewrite app_assoc.
    + exists t. reflexivity.
    + destruct (Hr a eq_refl) as (p & -> & _).
      exfalso. now apply Hn.
Qed.

(** ** [discover_headset], by cases on the socket set-up *)

Lemma discover_socket_fails (w : udp_world) (dp : N) (code : pystr) (e : exn) :
  udp_socket_r w = Some e ->
  discover_headset w dp code = ([UdpSocket], Raise e).
Proof. intro H. unfold discover_headset. rewrite H. reflexivity. Qed.

Lemma discover_bind_fails (w : udp_world) (dp : N) (code : pystr) (e : exn) :
  udp_socket_r w = None -> udp_bind_r w = Some e ->
  discover_headset w dp code
  = ([UdpSocket; UdpSetTimeout 5; UdpBind 5002], Raise e).
Proof. intros H1 H2. unfold discover_headset. rewrite H1, H2. reflexivity. Qed.

Lemma discover_setsockopt_fails (w : udp_world) (dp : N) (code : pystr)
  (e : exn) :
  udp_socket_r w = None -> udp_bind_r w = None ->
  udp_setsockopt_r w = Some e ->
  discover_headset w dp code
  = ([UdpSocket; UdpSetTimeout 5; UdpBind 5002; UdpSetBroadcast], Raise e).
Proof.
  intros H1 H2 H3. unfold discover_headset. rewrite H1, H2, H3. reflexivity.
Qed.

Lemma discover_encode_fails (w : udp_world) (dp : N) (code : pystr) (e : exn) :
  udp_socket_r w = None -> udp_bind_r w = None ->
  udp_setsockopt_r w = None -> str_encode code = Raise e ->
  discover_headset w dp code
  = ([UdpSocket; UdpSetTimeout 5; UdpBind 5002; UdpSetBroadcast;
      Print (BroadcastFailed e); UdpClose], Ok None).
Proof.
  intros H1 H2 H3 H4. unfold discover_headset.
  rewrite H1, H2, H3, H4. reflexivity.
Qed.

(** A failed broadcast: the socket is closed and [None] returned at once,
    with no clock reading and no receive. *)
Lemma discover_send_fails (w : udp_world) (dp : N) (code : pystr)
  (data : bytes) (e : exn) :
  udp_socket_r w = None -> udp_bind_r w = None ->
  udp_setsockopt_r w = None -> str_encode code = Ok data ->
  udp_sendto_r w = Some e ->
  discover_headset w dp code
  = ([UdpSocket; UdpSetTimeout 5; UdpBind 5002; UdpSetBroadcast;
      UdpSendTo data dp; Print (BroadcastFailed e); UdpClose], Ok None).
Proof.
  intros H1 H2 H3 H4 H5. unfold discover_headset.
  rewrite H1, H2, H3, H4, H5. reflexivity.
Qed.

Lemma discover_listens (w : udp_world) (dp : N) (code : pystr) (data : bytes) :
  setup_ok w -> str_encode code = Ok data ->
  discover_headset w dp code
  = prepend (preamble data dp code)
      (listen (clock_start w) (inbound w) (clock_idle w)).
Proof.
  intros (H1 & H2 & H3 & H4) H5. unfold discover_headset.
  rewrite H1, H2, H3, H4, H5. mred.
  destruct (listen (clock_start w) (inbound w) (clock_idle w)) as [t [a|e]];
    reflexivity.
Qed.

(** Whatever the set-up does, an address can only come out of the loop. *)
Lemma discover_found_inv (w : udp_world) (dp : N) (code ip : pystr) :
  outcome (discover_headset w dp code) = Ok (Some ip) ->
  exists data,
    setup_ok w /\ str_encode code = Ok data
    /\ outcome (listen (clock_start w) (inbound w) (clock_idle w))
       = Ok (Some ip).
Proof.
  intro H.
  destruct (udp_socket_r w) as [e|] eqn:H1.
  { rewrite (discover_socket_fails _ _ _ _ H1) in H. discriminate. }
  destruct (udp_bind_r w) as [e|] eqn:H2.
  { rewrite (discover_bind_fails _ _ _ _ H1 H2) in H. discriminate. }
  destruct (udp_setsockopt_r w) as [e|] eqn:H3.
  { rewrite (discover_setsockopt_fails _ _ _ _ H1 H2 H3) in H. discriminate. }
  destruct (str_encode code) as [data|e] eqn:H4.
  2:{ rewrite (discover_encode_fails _ _ _ _ H1 H2 H3 H4) in H. discriminate. }
  destruct (udp_sendto_r w) as [e|] eqn:H5.
  { rewrite (discover_send_fails _ _ _ _ _ H1 H2 H3 H4 H5) in H. discriminate. }
  exists data. split; [repeat split; assumption|]. split; [reflexivity|].
  rewrite (discover_listens w dp code data) in H by (repeat split; assumption).
  exact H.
Qed.

(** C4. When the set-up succeeds and the first receive returns a datagram
    whose payload is exactly the response text, [discover_headset] returns
    the sender's address; it has received once, and closing the socket is
    the last thing it does. *)
Theorem C4_first_response_wins (w : udp_world) (dp : N) (code : pystr)
  (data : bytes) (now : Q) (ip : pystr) (p : N)
  (rest : list (Q * recv_result)) :
  setup_ok w ->
  str_encode code = Ok data ->
  inbound w = (now, Datagram response_bytes ip p) :: rest ->
  expired (clock_start w) now = false ->
  let m := discover_headset w dp code in
  outcome m = Ok (Some ip)
  /\ events m = preamble data dp code
                ++ [Clock; UdpRecvFrom 1024; Print (Discovered ip); UdpClose]
  /\ receives (events m) = [UdpRecvFrom 1024]
  /\ last (events m) Clock = UdpClose.
Proof.
  intros Hs He Hi Hx m. subst m.
  rewrite (discover_listens w dp code data Hs He), Hi.
  rewrite (listen_match _ _ _ ip p rest Hx).
  repeat split.
Qed.

(** Scenario A: the answer of 192.168.1.42 to the broadcast of "AB12". *)
Lemma C4_first_response_wins_witness :
  outcome (discover_headset demo_udp 5001 (lit "AB12")) = Ok (Some headset_ip0)
  /\ receives (events (discover_headset demo_udp 5001 (lit "AB12")))
     = [UdpRecvFrom 1024].
Proof.
  destruct (C4_first_response_wins demo_udp 5001 (lit "AB12") (blit "AB12")
              100%Q headset_ip0 5001 []
              (conj eq_refl (conj eq_refl (conj eq_refl eq_refl)))
              eq_refl eq_refl eq_refl)
    as (H1 & _ & H3 & _).
  split; [exact H1 | exact H3].
Defined.

(** ** Discovery with no matching datagram *)

Lemma listen_idle (start idle : Q) :
  listen start [] idle
  = if expired start idle
    then ([Clock; Print DiscoveryTimeout; UdpClose], Ok None)
    else ([Clock; UdpRecvFrom 1024; Print SocketTimedOut; UdpClose], Ok None).
Proof.
  cbn [listen]. destruct (expired start idle) eqn:E.
  - now rewrite loop_body_expired.
  - now rewrite loop_body_raise.
Qed.

Lemma printed_prepend {A} (c : console) (t : trace) (m : M A) :
  printed c (events m) -> printed c (events (prepend t m)).
Proof. unfold printed, events, prepend. simpl. intro. apply in_or_app. auto. Qed.

Lemma listen_other_text (start idle : Q) (turns : list (Q * recv_result)) :
  Forall other_text turns ->
  waits_out_timeout (listen start turns idle).
Proof.
  induction 1 as [|[now r] rest (data & ip & p & text & Hr & Hd & Hn) _ IH].
  - rewrite listen_idle. unfold waits_out_timeout, printed.
    destruct (expired start idle); simpl; tauto.
  - simpl in Hr. subst r. destruct (expired start now) eqn:E.
    + rewrite listen_expired by assumption.
      left. unfold printed. simpl. tauto.
    + rewrite (listen_ignore _ _ _ _ _ _ text) by assumption.
      destruct IH as [IH|IH]; [left|right]; now apply printed_prepend.
Qed.

(** C3 as stated fails: a datagram that is not UTF-8 is not skipped.  Here
    two datagrams arrive within the first second, neither is the response;
    the first ends discovery with "Error during discovery", the second is
    never received and no timeout is waited for. *)
Lemma C3_counterexample :
  Forall non_matching (inbound junk_udp)
  /\ setup_ok junk_udp
  /\ ~ waits_out_timeout (discover_headset junk_udp 5001 (lit "AB12"))
  /\ receives (events (discover_headset junk_udp 5001 (lit "AB12")))
     = [UdpRecvFrom 1024]
  /\ printed (DiscoveryError UnicodeDecodeError)
       (events (discover_headset junk_udp 5001 (lit "AB12"))).
Proof.
  split; [|split; [|split; [|split]]].
  - repeat constructor; discriminate.
  - repeat split.
  - intros [H|H]; vm_compute in H; in_trace.
  - reflexivity.
  - vm_compute. tauto.
Qed.

(** C3, amended. When no inbound datagram carries the response bytes,
    [discover_headset] never returns an address, and after a successful
    set-up it closes the socket and returns [None].  A datagram with other
    well-formed text is skipped and the loop goes on against the same start
    time; a receive is only started while the elapsed time is at most
    [timeout], and a world of such datagrams ends on a timeout.  A datagram
    that is not UTF-8 ends discovery at once. *)
Theorem C3_non_matching_never_found (w : udp_world) (dp : N) (code : pystr) :
  Forall non_matching (inbound w) ->
  (forall ip, outcome (discover_headset w dp code) <> Ok (Some ip))
  /\ (forall data, setup_ok w -> str_encode code = Ok data ->
        exists t, discover_headset w dp code
                  = (preamble data dp code ++ t ++ [UdpClose], Ok None))
  /\ (forall data, setup_ok w -> str_encode code = Ok data ->
        Forall other_text (inbound w) ->
        waits_out_timeout (discover_headset w dp code))
  /\ (forall start now idle data ip p text rest,
        expired start now = false ->
        bytes_decode data = Ok text -> data <> response_bytes ->
        listen start ((now, Datagram data ip p) :: rest) idle
        = prepend [Clock; UdpRecvFrom 1024] (listen start rest idle))
  /\ (forall start now idle r rest,
        expired start now = true ->
        listen start ((now, r) :: rest) idle
        = ([Clock; Print DiscoveryTimeout; UdpClose], Ok None))
  /\ (forall start now idle data ip p rest,
        expired start now = false ->
        bytes_decode data = Raise UnicodeDecodeError ->
        listen start ((now, Datagram data ip p) :: rest) idle
        = ([Clock; UdpRecvFrom 1024; Print (DiscoveryError UnicodeDecodeError);
            UdpClose], Ok None)).
Proof.
  intro Hn. split; [|split; [|split; [|split; [|split]]]].
  - intros ip H.
    apply discover_found_inv in H as (data & _ & _ & H).
    destruct (listen_no_match (clock_start w) (clock_idle w) _ Hn) as (t & E).
    rewrite E in H. discriminate.
  - intros data Hs He.
    destruct (listen_no_match (clock_start w) (clock_idle w) _ Hn) as (t & E).
    exists t. rewrite (discover_listens w dp code data Hs He), E. reflexivity.
  - intros data Hs He Ho.
    rewrite (discover_listens w dp code data Hs He).
    destruct (listen_other_text (clock_start w) (clock_idle w) _ Ho) as [H|H];
      [left|right]; now apply printed_prepend.
  - intros. now apply (listen_ignore _ _ _ _ _ _ text).
  - intros. now apply listen_expired.
  - intros. now apply (listen_malformed _ _ _ _ _ _ UnicodeDecodeError).
Qed.

(** Two stray datagrams are skipped; at the third clock reading, six
    seconds after the start, the loop gives up without receiving again. *)
Lemma C3_non_matching_never_found_witness :
  Forall non_matching (inbound chatter_udp)
  /\ (forall ip,
        outcome (discover_headset chatter_udp 5001 (lit "AB12"))
        <> Ok (Some ip))
  /\ receives (events (discover_headset chatter_udp 5001 (lit "AB12")))
     = [UdpRecvFrom 1024; UdpRecvFrom 1024].
Proof.
  assert (H : Forall non_matching (inbound chatter_udp))
    by (repeat constructor; discriminate).
  split; [exact H|]. split.
  - exact (proj1 (C3_non_matching_never_found chatter_udp 5001 (lit "AB12") H)).
  - reflexivity.
Defined.

(** ** What each method can do *)

Lemma listen_events (dp : N) (start idle : Q) (turns : list (Q * recv_result)) :
  forallb (discovery_event dp) (events (listen start turns idle)) = true.
Proof.
  induction turns as [|[now r] rest IH].
  - rewrite listen_idle. destruct (expired start idle); reflexivity.
  - destruct (loop_body_cases start now r) as (t & c & E & Ht & _).
    rewrite (listen_cons _ _ _ _ _ _ _ E).
    unfold events, prepend. cbn [fst]. rewrite forallb_app, Ht.
    destruct c; [exact IH|reflexivity|reflexivity].
Qed.

Lemma discover_events (w : udp_world) (dp : N) (code : pystr) :
  forallb (discovery_event dp) (events (discover_headset w dp code)) = true.
Proof.
  destruct (udp_socket_r w) as [e|] eqn:H1.
  { now rewrite (discover_socket_fails _ _ _ _ H1). }
  destruct (udp_bind_r w) as [e|] eqn:H2.
  { now rewrite (discover_bind_fails _ _ _ _ H1 H2). }
  destruct (udp_setsockopt_r w) as [e|] eqn:H3.
  { now rewrite (discover_setsockopt_fails _ _ _ _ H1 H2 H3). }
  destruct (str_encode code) as [data|e] eqn:H4.
  2:{ now rewrite (discover_encode_fails _ _ _ _ H1 H2 H3 H4). }
  destruct (udp_sendto_r w) as [e|] eqn:H5.
  { rewrite (discover_send_fails _ _ _ _ _ H1 H2 H3 H4 H5).
    simpl. now rewrite N.eqb_refl. }
  rewrite (discover_listens w dp code data) by (repeat split; assumption).
  unfold events, prepend. cbn [fst]. rewrite forallb_app.
  change (fst ?m) with (events m). rewrite listen_events.
  simpl. now rewrite N.eqb_refl.
Qed.

Lemma send_data_events (w : tcp_world) (payload : bytes)
  (file_name ip : pystr) (p : N) :
  forallb (transfer_event ip p) (events (send_data w payload file_name ip p))
  = true.
Proof.
  unfold send_data. mrun; simpl;
    rewrite ?pystr_eqb_refl, ?N.eqb_refl; reflexivity.
Qed.

(** [sock.close()] is reached exactly when the acknowledgment was read. *)
Lemma send_data_closes_iff (w : tcp_world) (payload : bytes)
  (file_name ip : pystr) (p : N) :
  In TcpClose (events (send_data w payload file_name ip p))
  <-> exists pkt ack,
        make_packet payload file_name = Ok pkt
        /\ tcp_socket_r w = None /\ tcp_connect_r w = None
        /\ tcp_sendall_r w = None /\ tcp_recv_r w = Ok ack.
Proof.
  split.
  - unfold send_data.
    destruct (make_packet payload file_name) as [pkt|e];
      [|mred; simpl; tauto].
    destruct (tcp_socket_r w) as [e|];
      [mrun; intro H; in_trace|].
    destruct (tcp_connect_r w) as [e|];
      [mrun; intro H; in_trace|].
    destruct (tcp_sendall_r w) as [e|];
      [mrun; intro H; in_trace|].
    destruct (tcp_recv_r w) as [ack|e];
      [|mrun; intro H; in_trace].
    intros _. exists pkt, ack. tauto.
  - intros (pkt & ack & Hp & Hs & Hc & Hw & Hr).
    rewrite (send_data_acked w payload file_name ip p pkt ack Hp Hs Hc Hw Hr).
    simpl. tauto.
Qed.

(** ** Failures that are not handled *)

(** C6 does not hold of the code. When [connect] is refused, or when the
    read of the acknowledgment times out, [send_data] prints its failure
    line and returns without ever calling [sock.close()]. *)
Theorem C6_socket_left_open :
  send_data refusing_tcp (blit "0123456789") (lit "Chair.glb") headset_ip0 5000
  = ([TcpSocket; TcpSetTimeout 30; Print (Connecting headset_ip0 5000);
      TcpConnect headset_ip0 5000; Print (TransferError (OSError 111))],
     Ok tt)
  /\ ~ In TcpClose
       (events (send_data refusing_tcp (blit "0123456789") (lit "Chair.glb")
                  headset_ip0 5000))
  /\ outcome (send_data silent_tcp (blit "0123456789") (lit "Chair.glb")
                headset_ip0 5000) = Ok tt
  /\ printed ConnectionTimedOut
       (events (send_data silent_tcp (blit "0123456789") (lit "Chair.glb")
                  headset_ip0 5000))
  /\ ~ In TcpClose
       (events (send_data silent_tcp (blit "0123456789") (lit "Chair.glb")
                  headset_ip0 5000)).
Proof.
  split; [reflexivity|]. split; [|split; [reflexivity|split]].
  - intro H. apply send_data_closes_iff in H as (? & ? & _ & _ & H & _).
    discriminate.
  - vm_compute. tauto.
  - intro H. apply send_data_closes_iff in H as (? & ? & _ & _ & _ & _ & H).
    discriminate.
Qed.

(** ** [execute], by cases *)

Lemma duplicate_events (h : host) (objs : list bobject) :
  exists t,
    duplicate h objs = (t, duplicated h objs)
    /\ forallb glue_event t = true.
Proof.
  induction objs as [|o rest (t & E & Ht)]; cbn [duplicate duplicated].
  - now exists [].
  - destruct (to_mesh h o) as [[|]|e]; mred.
    + destruct (copy_r h o) as [e|]; mred; [now exists []|].
      rewrite E. destruct (duplicated h rest) as [ds|e]; mred.
      * exists (t ++ []). split; [reflexivity|]. now rewrite app_nil_r.
      * exists t. now split.
    + rewrite E. destruct (duplicated h rest) as [ds|e];
        exists (Print (WarnNoMesh (ob_name o)) :: t); now split.
    + now exists [].
Qed.

Lemma execute_bad_code (h : host) (w : udp_world) (ctx : context) :
  valid_code h ctx = false ->
  execute h w ctx = ([Report ERROR CodeLength], Ok (CANCELLED, None)).
Proof.
  unfold valid_code, normalized_code, execute. intros ->. reflexivity.
Qed.

Lemma execute_discovery_raises (h : host) (w : udp_world) (ctx : context)
  (t : trace) (e : exn) :
  valid_code h ctx = true ->
  discover_headset w 5001 (normalized_code h ctx) = (t, Raise e) ->
  execute h w ctx = (t, Raise e).
Proof.
  unfold valid_code, normalized_code, execute. intros -> H.
  cbn [negb]. rewrite H. reflexivity.
Qed.

Lemma execute_not_discovered (h : host) (w : udp_world) (ctx : context)
  (t : trace) (found : option pystr) :
  valid_code h ctx = true ->
  discover_headset w 5001 (normalized_code h ctx) = (t, Ok found) ->
  found = None \/ found = Some [] ->
  execute h w ctx = (t ++ [Report ERROR NotDiscovered], Ok (CANCELLED, None)).
Proof.
  unfold valid_code, normalized_code, execute. intros -> H Hf.
  cbn [negb]. rewrite H. destruct Hf; subst found; reflexivity.
Qed.

Lemma execute_discovered (h : host) (w : udp_world) (ctx : context)
  (t : trace) (c : N) (ip : pystr) :
  valid_code h ctx = true ->
  discover_headset w 5001 (normalized_code h ctx) = (t, Ok (Some (c :: ip))) ->
  execute h w ctx = prepend t (export_and_start h ctx (c :: ip)).
Proof.
  unfold valid_code, normalized_code, execute. intros -> H.
  cbn [negb]. rewrite H, bind_ok. reflexivity.
Qed.

Lemma cancel_ending (ip : pystr) (s : status) :
  (forall a, s <> Started a) -> s <> CodeLength -> s <> NotDiscovered ->
  ending ip (cancel s).
Proof. intros. now apply (EndCancelled ip []). Qed.

Lemma ending_cancelled (ip : pystr) (t pre : trace) (s : status) :
  forallb glue_event t = true -> forallb glue_event pre = true ->
  (forall a, s <> Started a) -> s <> CodeLength -> s <> NotDiscovered ->
  ending ip (t ++ pre ++ [Report ERROR s], Ok (CANCELLED, None)).
Proof.
  intros Ht Hp H1 H2 H3. rewrite app_assoc.
  apply EndCancelled; auto. now rewrite forallb_app, Ht, Hp.
Qed.

Lemma ending_started (ip : pystr) (t pre : trace) (data : bytes)
  (name : pystr) :
  forallb glue_event t = true -> forallb glue_event pre = true ->
  ending ip (t ++ pre ++ [ThreadStart; Report INFO (Started ip)],
             Ok (FINISHED,
                 Some {| job_data := data; job_name := name;
                         job_ip := ip; job_port := 5000 |})).
Proof.
  intros Ht Hp. rewrite app_assoc.
  apply EndStarted. now rewrite forallb_app, Ht, Hp.
Qed.

Lemma export_and_start_ending (h : host) (ctx : context) (ip : pystr) :
  ending ip (export_and_start h ctx ip).
Proof.
  unfold export_and_start.
  destruct (is_empty (selected_objects ctx));
    [apply cancel_ending; discriminate|].
  destruct (active ctx) as [a|]; [|apply cancel_ending; discriminate].
  destruct (negb (among a (selected_objects ctx)));
    [apply cancel_ending; discriminate|].
  cbv zeta.
  set (fn := clean_name h (ob_name a) ++ lit ".glb").
  destruct (depsgraph_r h) as [e|]; mred; [now apply EndRaised|].
  destruct (duplicate_events h (selected_objects ctx)) as (t & E & Ht).
  rewrite E. unfold cancel.
  destruct (duplicated h (selected_objects ctx)) as [ds|e]; mred;
    rewrite ?app_nil_l; [|now apply EndRaised].
  destruct (is_empty ds); mred; rewrite ?app_nil_l.
  { apply (ending_cancelled ip t []); auto; discriminate. }
  destruct (export_r h) as [e|]; mred; rewrite ?app_nil_l.
  { apply EndRaised. rewrite forallb_app, Ht. reflexivity. }
  destruct (restore_r h) as [e|]; mred; rewrite ?app_nil_l.
  { apply EndRaised. rewrite forallb_app, Ht. reflexivity. }
  destruct (read_r h) as [data|e]; mred; rewrite ?app_nil_l.
  - destruct (remove_r h) as [e|]; mred; rewrite ?app_nil_l.
    + apply EndRaised. rewrite forallb_app, Ht. reflexivity.
    + destruct (thread_r h) as [e|]; mred; rewrite ?app_nil_l.
      * apply EndRaised. rewrite forallb_app, Ht. reflexivity.
      * apply (ending_started ip t
                 [ExportGlb fn ds; ReadFile fn; RemoveFile fn]); auto.
  - apply (ending_cancelled ip t
             [ExportGlb fn ds; ReadFile fn; Print (ReadErrorLine e)]);
      auto; discriminate.
Qed.

Lemma execute_shape (h : host) (w : udp_world) (ctx : context) :
  shape h w ctx (execute h w ctx).
Proof.
  destruct (valid_code h ctx) eqn:V.
  2:{ rewrite execute_bad_code by assumption. now constructor. }
  destruct (discover_headset w 5001 (normalized_code h ctx))
    as [td [[[|c ip]|]|e]] eqn:D.
  - rewrite (execute_not_discovered h w ctx td (Some [])); auto.
    apply (NothingFound h w ctx td (Some [])); auto.
  - rewrite (execute_discovered h w ctx td c ip); auto.
    apply Found; auto. apply export_and_start_ending.
  - rewrite (execute_not_discovered h w ctx td None); auto.
    apply (NothingFound h w ctx td None); auto.
  - rewrite (execute_discovery_raises h w ctx td e); auto.
    now apply DiscoveryRaised.
Qed.

(** ** Reading traces *)

Lemma reports_app (t u : trace) : reports (t ++ u) = reports t ++ reports u.
Proof. unfold reports. apply flat_map_app. Qed.

Lemma network_calls_app (t u : trace) :
  network_calls (t ++ u) = network_calls t ++ network_calls u.
Proof. unfold network_calls. apply filter_app. Qed.

Lemma filter_none {A} (P Q : A -> bool) (l : list A) :
  (forall x, P x = true -> Q x = false) ->
  forallb P l = true -> filter Q l = [].
Proof.
  intros HPQ. induction l as [|x l IH]; [reflexivity|].
  cbn [forallb filter]. intro H. apply andb_true_iff in H as [Hx Hl].
  rewrite (HPQ x Hx). auto.
Qed.

Lemma reports_none (P : event -> bool) (t : trace) :
  (forall l s, P (Report l s) = false) ->
  forallb P t = true -> reports t = [].
Proof.
  intros HP. induction t as [|ev t IH]; [reflexivity|].
  cbn [forallb]. intro H. apply andb_true_iff in H as [Hx Hl].
  unfold reports in *. cbn [flat_map]. rewrite (IH Hl).
  destruct ev; try reflexivity. now rewrite HP in Hx.
Qed.

Lemma glue_no_network (t : trace) :
  forallb glue_event t = true -> network_calls t = [].
Proof. apply filter_none. now intros []. Qed.

Lemma glue_no_reports (t : trace) :
  forallb glue_event t = true -> reports t = [].
Proof. now apply reports_none. Qed.

Lemma discovery_no_tcp (dp : N) (t : trace) :
  forallb (discovery_event dp) t = true -> filter is_tcp t = [].
Proof. apply filter_none. now intros []. Qed.

Lemma discovery_no_reports (dp : N) (t : trace) :
  forallb (discovery_event dp) t = true -> reports t = [].
Proof. now apply reports_none. Qed.

Lemma transfer_no_udp (ip : pystr) (p : N) (t : trace) :
  forallb (transfer_event ip p) t = true -> filter is_udp t = [].
Proof. apply filter_none. now intros []. Qed.

Lemma transfer_no_reports (ip : pystr) (p : N) (t : trace) :
  forallb (transfer_event ip p) t = true -> reports t = [].
Proof. now apply reports_none. Qed.

Lemma discover_starts (w : udp_world) (dp : N) (code : pystr) :
  exists t, events (discover_headset w dp code) = UdpSocket :: t.
Proof.
  unfold discover_headset, call, events.
  destruct (udp_socket_r w); [now exists []|].
  cbn [bind]. destruct (_ ;; _) as [t r]. cbn [fst app]. now exists t.
Qed.

(** ** Failures of the socket set-up *)

(** C8. When [bind] fails, or when the broadcast cannot be sent,
    [discover_headset] fails at once and on the socket error itself: it
    gives no address, has read no clock and made no receive, and prints
    neither timeout line.  A failed [bind] ends it with the exception
    raised by [bind]; a failed [sendto] is printed as "Failed to send
    broadcast message", the socket is closed and [None] returned.  In both
    cases [execute] hands control back to the host: with that exception,
    or with [CANCELLED] and one error report. *)
Theorem C8_setup_failure_is_immediate (w : udp_world) (dp : N)
  (code : pystr) (e : exn) :
  udp_socket_r w = None ->
  udp_bind_r w = Some e
  \/ (udp_bind_r w = None /\ udp_setsockopt_r w = None
      /\ (exists data, str_encode code = Ok data)
      /\ udp_sendto_r w = Some e) ->
  let m := discover_headset w dp code in
  (forall ip, outcome m <> Ok (Some ip))
  /\ clock_reads (events m) = []
  /\ receives (events m) = []
  /\ ~ waits_out_timeout m
  /\ (udp_bind_r w = Some e -> outcome m = Raise e)
  /\ (udp_bind_r w = None ->
      outcome m = Ok None
      /\ printed (BroadcastFailed e) (events m)
      /\ last (events m) Clock = UdpClose)
  /\ (forall h ctx,
        valid_code h ctx = true -> normalized_code h ctx = code ->
        dp = 5001 ->
        (udp_bind_r w = Some e -> execute h w ctx = (events m, Raise e))
        /\ (udp_bind_r w = None ->
            execute h w ctx
            = (events m ++ [Report ERROR NotDiscovered],
               Ok (CANCELLED, None)))).
Proof.
  intros Hs [Hb|(Hb & Ho & (data & Hd) & Hx)] m; subst m.
  - rewrite (discover_bind_fails w dp code e Hs Hb).
    unfold outcome, events, waits_out_timeout. cbn [fst snd].
    split; [discriminate|]. split; [reflexivity|]. split; [reflexivity|].
    split; [intros [H|H]; in_trace|]. split; [reflexivity|].
    split; [intro H; congruence|].
    intros h ctx V Hc ->. split; [|intro H; congruence]. intros _.
    apply (execute_discovery_raises h w ctx _ e V).
    rewrite Hc. now apply discover_bind_fails.
  - rewrite (discover_send_fails w dp code data e Hs Hb Ho Hd Hx).
    unfold outcome, events, waits_out_timeout, printed. cbn [fst snd].
    split; [discriminate|]. split; [reflexivity|]. split; [reflexivity|].
    split; [intros [H|H]; in_trace|]. split; [intro H; congruence|].
    split.
    + intros _. split; [reflexivity|]. split; [simpl; tauto|reflexivity].
    + intros h ctx V Hc ->. split; [intro H; congruence|]. intros _.
      apply (execute_not_discovered h w ctx _ None V); [|now left].
      rewrite Hc. now apply discover_send_fails.
Qed.

(** Port 5002 already in use, and a network that cannot be reached. *)
Lemma C8_setup_failure_is_immediate_witness :
  (outcome (discover_headset busy_udp 5001 (lit "AB12")) = Raise (OSError 98)
   /\ receives (events (discover_headset busy_udp 5001 (lit "AB12"))) = []
   /\ clock_reads (events (discover_headset busy_udp 5001 (lit "AB12")))
      = [])
  /\ (outcome (discover_headset unreachable_udp 5001 (lit "AB12")) = Ok None
      /\ receives (events (discover_headset unreachable_udp 5001 (lit "AB12")))
         = []
      /\ execute demo_host unreachable_udp demo_context
         = (events (discover_headset unreachable_udp 5001 (lit "AB12"))
            ++ [Report ERROR NotDiscovered], Ok (CANCELLED, None))).
Proof.
  split.
  - destruct (C8_setup_failure_is_immediate busy_udp 5001 (lit "AB12")
                (OSError 98) eq_refl (or_introl eq_refl))
      as (_ & Hc & Hr & _ & Ho & _).
    split; [exact (Ho eq_refl)|]. split; [exact Hr|exact Hc].
  - destruct (C8_setup_failure_is_immediate unreachable_udp 5001 (lit "AB12")
                (OSError 101) eq_refl
                (or_intror
                   (conj eq_refl
                      (conj eq_refl
                         (conj (ex_intro _ (blit "AB12") eq_refl) eq_refl)))))
      as (_ & _ & Hr & _ & _ & Ho & Hx).
    split; [exact (proj1 (Ho eq_refl))|]. split; [exact Hr|].
    exact (proj2 (Hx demo_host demo_context eq_refl eq_refl eq_refl) eq_refl).
Defined.

(** ** Validation and network I/O *)

Lemma export_and_start_invalid (h : host) (ctx : context) (ip : pystr) :
  valid_selection ctx = false ->
  export_and_start h ctx ip
  = cancel (if is_empty (selected_objects ctx)
            then NoSelection else ActiveNotSelected).
Proof.
  unfold valid_selection, export_and_start.
  destruct (is_empty (selected_objects ctx)); [reflexivity|].
  destruct (active ctx) as [a|]; [|reflexivity].
  cbn [negb andb]. now intros ->.
Qed.

(** C2 as stated fails: with a good code and nothing selected, the
    broadcast and the receive have happened by the time the selection is
    rejected. *)
Lemma C2_counterexample :
  valid_selection nothing_selected = false
  /\ execute demo_host demo_udp nothing_selected
     = ([UdpSocket; UdpSetTimeout 5; UdpBind 5002; UdpSetBroadcast;
         UdpSendTo (blit "AB12") 5001; Print (Broadcasting (lit "AB12") 5001);
         Clock; Clock; UdpRecvFrom 1024; Print (Discovered headset_ip0);
         UdpClose; Report ERROR NoSelection], Ok (CANCELLED, None))
  /\ network_calls (events (execute demo_host demo_udp nothing_selected))
     <> [].
Proof. repeat split. discriminate. Qed.

(** C2, amended. A code that does not normalize to four characters is
    rejected before any network call.  With a good code, discovery runs
    first, whatever the selection: its socket calls are in the trace.  A bad
    selection is then rejected, when discovery has found an address, with
    one error report, [CANCELLED], no further network call and no worker;
    and whatever discovery gives, a run with a bad selection makes no
    network call after discovery and never finishes with a started
    transfer. *)
Theorem C2_code_checked_before_network (h : host) (w : udp_world)
  (ctx : context) :
  (valid_code h ctx = false ->
     execute h w ctx = ([Report ERROR CodeLength], Ok (CANCELLED, None))
     /\ network_calls (events (execute h w ctx)) = [])
  /\ (valid_code h ctx = true ->
        network_calls (events (execute h w ctx)) <> []
        /\ (valid_selection ctx = false ->
            let d := discover_headset w 5001 (normalized_code h ctx) in
            (exists rest,
               events (execute h w ctx) = events d ++ rest
               /\ network_calls rest = [])
            /\ (forall c ip, outcome d = Ok (Some (c :: ip)) ->
                  execute h w ctx
                  = (events d
                     ++ [Report ERROR (if is_empty (selected_objects ctx)
                                       then NoSelection
                                       else ActiveNotSelected)],
                     Ok (CANCELLED, None)))
            /\ (forall rc j, outcome (execute h w ctx) = Ok (rc, j) ->
                  rc = CANCELLED /\ j = None))).
Proof.
  split.
  { intro V. rewrite (execute_bad_code h w ctx V). now split. }
  intro V. split.
  { destruct (discover_starts w 5001 (normalized_code h ctx)) as (t0 & E0).
    destruct (execute_shape h w ctx) as [V'|td e _ D|td found _ D _|td c ip _ D _];
      [congruence| | |]; rewrite D in E0; unfold events in *; cbn [fst] in *;
      subst td; discriminate. }
  intros S d. subst d.
  destruct (execute_shape h w ctx) as [V'|td e _ D|td found _ D F|td c ip _ D _];
    [congruence| | |]; rewrite D; unfold events, outcome; cbn [fst snd].
  - split; [exists []; split; [now rewrite app_nil_r|reflexivity]|].
    split; [discriminate|discriminate].
  - split; [exists [Report ERROR NotDiscovered]; now split|].
    split.
    + intros c ip E. destruct F; congruence.
    + intros rc j E. inversion E. now split.
  - rewrite (export_and_start_invalid h ctx (c :: ip) S).
    unfold prepend, cancel. mred.
    split; [eexists; split; [reflexivity|reflexivity]|].
    split.
    + intros c' ip' _. reflexivity.
    + intros rc j E. inversion E. now split.
Qed.

(** The code "  ab1 " strips to three characters: one report, no network
    call. *)
Lemma C2_code_checked_before_network_witness :
  valid_code demo_host blank_code = false
  /\ execute demo_host demo_udp blank_code
     = ([Report ERROR CodeLength], Ok (CANCELLED, None))
  /\ network_calls (events (execute demo_host demo_udp blank_code)) = [].
Proof.
  split; [reflexivity|].
  exact (proj1 (C2_code_checked_before_network demo_host demo_udp blank_code)
               eq_refl).
Defined.

(** ** The two threads *)

Lemma forallb_weaken {A} (P Q : A -> bool) (l : list A) :
  (forall x, P x = true -> Q x = true) ->
  forallb P l = true -> forallb Q l = true.
Proof.
  intros HPQ H. apply forallb_forall. intros x Hx.
  apply HPQ. rewrite forallb_forall in H. now apply H.
Qed.

Lemma glue_is_caller (t : trace) :
  forallb glue_event t = true -> forallb caller_event t = true.
Proof.
  apply forallb_weaken. intros ev H. unfold caller_event. now rewrite H.
Qed.

Lemma caller_no_network (t : trace) :
  forallb caller_event t = true -> network_calls t = [].
Proof. apply filter_none. now intros []. Qed.

Lemma caller_no_tcp (t : trace) :
  forallb caller_event t = true -> filter is_tcp t = [].
Proof. apply filter_none. now intros []. Qed.

Lemma ending_events (ip : pystr) (m : M (retcode * option job)) :
  ending ip m -> forallb caller_event (events m) = true.
Proof.
  intros [t s Ht _ _ _|t data name Ht|t e Ht]; unfold events; cbn [fst];
    rewrite ?forallb_app, ?(glue_is_caller t Ht); auto.
Qed.

(** With a good code, the caller's thread first runs the whole of
    discovery and then touches no socket. *)
Lemma execute_after_discovery (h : host) (w : udp_world) (ctx : context) :
  valid_code h ctx = true ->
  exists rest,
    events (execute h w ctx)
    = events (discover_headset w 5001 (normalized_code h ctx)) ++ rest
    /\ forallb caller_event rest = true.
Proof.
  intro V.
  destruct (execute_shape h w ctx) as [V'|td e _ D|td found _ D _|td c ip _ D E];
    [congruence| | |]; rewrite D; unfold events; cbn [fst].
  - exists []. now rewrite app_nil_r.
  - now exists [Report ERROR NotDiscovered].
  - exists (events (export_and_start h ctx (c :: ip))).
    split; [reflexivity|]. now apply (ending_events (c :: ip)).
Qed.

(** How a run that returns has ended. *)
Lemma execute_returns (h : host) (w : udp_world) (ctx : context)
  (rc : retcode) (j : option job) :
  outcome (execute h w ctx) = Ok (rc, j) ->
  (rc = CANCELLED /\ j = None
   /\ exists s, reports (events (execute h w ctx)) = [(ERROR, s)]
                /\ forall a, s <> Started a)
  \/ (rc = FINISHED
      /\ exists data name c ip t,
           j = Some {| job_data := data; job_name := name;
                       job_ip := c :: ip; job_port := 5000 |}
           /\ outcome (discover_headset w 5001 (normalized_code h ctx))
              = Ok (Some (c :: ip))
           /\ events (execute h w ctx)
              = t ++ [ThreadStart; Report INFO (Started (c :: ip))]
           /\ reports (events (execute h w ctx))
              = [(INFO, Started (c :: ip))]).
Proof.
  pose proof (discover_events w 5001 (normalized_code h ctx)) as Hd.
  destruct (execute_shape h w ctx) as [V|td e _ D|td found _ D _|td c ip _ D E];
    try rewrite D in Hd; unfold events, outcome in *; cbn [fst snd] in *;
    intro H.
  - inversion H. left. repeat split. exists CodeLength. now split.
  - discriminate.
  - inversion H. left. repeat split. exists NotDiscovered.
    rewrite reports_app, (discovery_no_reports 5001 td Hd). now split.
  - remember (export_and_start h ctx (c :: ip)) as m eqn:Em.
    destruct E as [t s Ht Hs _ _|t data name Ht|t e Ht];
      unfold prepend in *; cbn [fst snd] in *.
    + inversion H. left. repeat split. exists s.
      rewrite !reports_app, (discovery_no_reports 5001 td Hd),
        (glue_no_reports t Ht). now split.
    + inversion H. right. split; [reflexivity|].
      exists data, name, c, ip, (td ++ t).
      split; [reflexivity|]. split; [now rewrite D|].
      split; [now rewrite app_assoc|].
      rewrite !reports_app, (discovery_no_reports 5001 td Hd),
        (glue_no_reports t Ht). reflexivity.
    + discriminate.
Qed.

(** ** What the host is told *)

Lemma execute_raises (h : host) (w : udp_world) (ctx : context) (e : exn) :
  outcome (execute h w ctx) = Raise e ->
  reports (events (execute h w ctx)) = [].
Proof.
  pose proof (discover_events w 5001 (normalized_code h ctx)) as Hd.
  destruct (execute_shape h w ctx) as [V|td e' _ D|td found _ D _|td c ip _ D E];
    try rewrite D in Hd; unfold events, outcome in *; cbn [fst snd] in *;
    intro H; try discriminate.
  - now apply (discovery_no_reports 5001).
  - remember (export_and_start h ctx (c :: ip)) as m eqn:Em.
    destruct E as [t s Ht Hs _ _|t data name Ht|t e' Ht];
      unfold prepend in *; cbn [fst snd] in *; try discriminate.
    now rewrite reports_app, (discovery_no_reports 5001 td Hd),
      (glue_no_reports t Ht).
Qed.

(** C9 as stated fails: when the headset answers "Error" the transfer has
    failed, yet all the host is ever told is that the transfer started. *)
Lemma C9_counterexample :
  transfer_failed (invoke demo_host demo_udp rejecting_tcp demo_context)
  /\ all_reports (invoke demo_host demo_udp rejecting_tcp demo_context)
     = [(INFO, Started headset_ip0)]
  /\ ~ failure_surfaced (invoke demo_host demo_udp rejecting_tcp demo_context).
Proof.
  split; [|split].
  - eexists. split; [reflexivity|]. left. vm_compute. tauto.
  - reflexivity.
  - intros (s & H). vm_compute in H. destruct H as [H|[]]. discriminate.
Qed.

(** C9, amended. Every invocation of [execute] that returns has made
    exactly one report to the host: an error, with [CANCELLED] and no
    worker, or the "started" information, with [FINISHED] and a worker.
    The worker reports nothing: how the transfer ended is only printed. *)
Theorem C9_one_report_per_return (h : host) (uw : udp_world) (tw : tcp_world)
  (ctx : context) (rc : retcode) (j : option job) :
  let r := invoke h uw tw ctx in
  outcome (main_thread r) = Ok (rc, j) ->
  (exists l s,
     reports (events (main_thread r)) = [(l, s)]
     /\ all_reports r = [(l, s)]
     /\ ((rc = CANCELLED /\ l = ERROR /\ worker_thread r = None
          /\ forall a, s <> Started a)
         \/ (rc = FINISHED /\ l = INFO /\ (exists a, s = Started a)
             /\ worker_thread r <> None)))
  /\ (forall m, worker_thread r = Some m -> reports (events m) = []).
Proof.
  intros r O. subst r. unfold all_reports, invoke in *.
  cbn [main_thread worker_thread] in *.
  assert (W : forall m,
             match outcome (execute h uw ctx) with
             | Ok (_, Some j0) =>
               Some (send_data tw (job_data j0) (job_name j0) (job_ip j0)
                       (job_port j0))
             | _ => None
             end = Some m -> reports (events m) = []).
  { intros m Hm. rewrite O in Hm. destruct j as [j0|]; [|discriminate].
    inversion Hm.
    apply (transfer_no_reports (job_ip j0) (job_port j0)), send_data_events. }
  split; [|exact W].
  destruct (execute_returns h uw ctx rc j O)
    as [(-> & -> & s & Hs & Hn)
       |(-> & data & name & c & ip & t & -> & _ & _ & Hs)].
  - exists ERROR, s. rewrite Hs, O. split; [reflexivity|].
    split; [reflexivity|]. left. now repeat split.
  - exists INFO, (Started (c :: ip)). rewrite Hs. split; [reflexivity|].
    split.
    + rewrite O. cbn [job_data job_name job_ip job_port].
      now rewrite (transfer_no_reports (c :: ip) 5000 _
                     (send_data_events tw data name (c :: ip) 5000)).
    + right. rewrite O. repeat split; [now exists (c :: ip)|discriminate].
Qed.

(** The demo run ends with the single report "started". *)
Lemma C9_one_report_per_return_witness :
  all_reports (invoke demo_host demo_udp rejecting_tcp demo_context)
  = [(INFO, Started headset_ip0)].
Proof.
  destruct (C9_one_report_per_return demo_host demo_udp rejecting_tcp
              demo_context FINISHED
              (Some {| job_data := blit "0123456789";
                       job_name := lit "Chair.glb";
                       job_ip := headset_ip0; job_port := 5000 |})
              eq_refl) as ((l & s & H1 & H2 & _) & _).
  rewrite H2. rewrite <- H1. reflexivity.
Defined.

(** ** The preferences *)

Lemma discovery_hardcoded (t : trace) :
  forallb (discovery_event 5001) t = true -> forallb hardcoded t = true.
Proof. apply forallb_weaken. now intros []. Qed.

Lemma caller_hardcoded (t : trace) :
  forallb caller_event t = true -> forallb hardcoded t = true.
Proof. apply forallb_weaken. now intros []. Qed.

Lemma transfer_hardcoded (ip : pystr) (t : trace) :
  forallb (transfer_event ip 5000) t = true -> forallb hardcoded t = true.
Proof.
  apply forallb_weaken. intros []; try easy.
  cbn. intro H. now apply andb_true_iff in H.
Qed.

(** C10. Two invocations that differ only in the add-on preferences are
    the same run, event for event and on both threads; and every bind,
    broadcast, connect and timeout setting in a run uses 5002, 5001, 5000,
    5 s and 30 s. *)
Theorem C10_preferences_ignored (h : host) (uw : udp_world) (tw : tcp_world)
  (c1 c2 : context) :
  same_but_preferences c1 c2 ->
  invoke h uw tw c1 = invoke h uw tw c2
  /\ forallb hardcoded (events (main_thread (invoke h uw tw c1))) = true
  /\ (forall m, worker_thread (invoke h uw tw c1) = Some m ->
        forallb hardcoded (events m) = true).
Proof.
  intros (Hc & Hs & Ha). split; [|split].
  - destruct c1 as [code1 sel1 act1 p1], c2 as [code2 sel2 act2 p2].
    cbn in Hc, Hs, Ha. subst. reflexivity.
  - unfold invoke. cbn [main_thread].
    destruct (valid_code h c1) eqn:V.
    + destruct (execute_after_discovery h uw c1 V) as (rest & E & Hr).
      rewrite E, forallb_app, (caller_hardcoded rest Hr), andb_true_r.
      apply discovery_hardcoded, discover_events.
    + now rewrite (execute_bad_code h uw c1 V).
  - unfold invoke. cbn [worker_thread]. intros m Hm.
    destruct (outcome (execute h uw c1)) as [[rc [j|]]|e] eqn:O;
      try discriminate.
    destruct (execute_returns h uw c1 rc (Some j) O)
      as [(_ & X & _)|(_ & data & name & c & ip & t & Hj & _)];
      [discriminate|].
    inversion Hj. subst j. cbn [job_data job_name job_ip job_port] in Hm.
    inversion Hm.
    apply (transfer_hardcoded (c :: ip)), send_data_events.
Qed.

(** Preferences 6000 and 6001 give the run of the defaults. *)
Lemma C10_preferences_ignored_witness :
  invoke demo_host demo_udp demo_tcp demo_context
  = invoke demo_host demo_udp demo_tcp other_prefs_context
  /\ addon_preferences demo_context
     <> addon_preferences other_prefs_context.
Proof.
  split.
  - exact (proj1 (C10_preferences_ignored demo_host demo_udp demo_tcp
                    demo_context other_prefs_context
                    (conj eq_refl (conj eq_refl eq_refl)))).
  - discriminate.
Defined.

(** ** More on discovery *)

Lemma loop_body_turn (start now : Q) (r : recv_result) :
  turn_case start now r (loop_body start now r).
Proof.
  destruct (expired start now) eqn:E.
  { rewrite loop_body_expired by assumption. now constructor. }
  destruct r as [data a p|e].
  - destruct (bytes_decode data) as [text|e] eqn:D.
    + destruct (list_eq_dec Byte.byte_eq_dec data response_bytes) as [->|Ne].
      * rewrite loop_body_match by assumption. now apply (TurnMatched _ _ _ a p).
      * rewrite (loop_body_ignore _ _ _ _ _ text) by assumption.
        now apply (TurnIgnored _ _ _ data a p text).
    + rewrite (loop_body_malformed _ _ _ _ _ e) by assumption.
      apply (TurnMalformed _ _ _ data a p); auto.
      unfold bytes_decode in *. destruct (utf8_decode data); congruence.
  - rewrite loop_body_raise by assumption.
    now apply (TurnRaised _ _ _ e).
Qed.

(** The loop always returns; when it does the socket has been closed once,
    by its last call. *)
Lemma listen_closes (start idle : Q) (turns : list (Q * recv_result)) :
  exists t found,
    listen start turns idle = (t ++ [UdpClose], Ok found)
    /\ closes t = [] /\ broadcasts t = [].
Proof.
  induction turns as [|[now r] rest (t' & found' & IH & Hc & Hb)].
  - rewrite listen_idle. destruct (expired start idle).
    + now exists [Clock; Print DiscoveryTimeout], None.
    + now exists [Clock; UdpRecvFrom 1024; Print SocketTimedOut], None.
  - pose proof (loop_body_turn start now r) as T.
    remember (loop_body start now r) as m eqn:Em. symmetry in Em.
    destruct T; rewrite (listen_cons _ _ _ _ _ _ _ Em);
      unfold prepend, after; mred.
    + now exists [Clock; Print DiscoveryTimeout], None.
    + now exists [Clock; UdpRecvFrom 1024; Print c], None.
    + now exists [Clock; UdpRecvFrom 1024;
                  Print (DiscoveryError UnicodeDecodeError)], None.
    + rewrite IH. exists ([Clock; UdpRecvFrom 1024] ++ t'), found'.
      cbn [fst snd]. split; [now rewrite <- app_assoc|].
      unfold closes, broadcasts in *. rewrite !filter_app, Hc, Hb. now split.
    + now exists [Clock; UdpRecvFrom 1024; Print (Discovered ip)], (Some ip).
Qed.

(** X1. Whenever [discover_headset] returns, with or without an address,
    it has closed its socket exactly once and that is the last thing it
    did; when it raises, the socket was never closed. *)
Theorem X1_discovery_closes_once (w : udp_world) (dp : N) (code : pystr) :
  match outcome (discover_headset w dp code) with
  | Ok _ =>
    closes (events (discover_headset w dp code)) = [UdpClose]
    /\ last (events (discover_headset w dp code)) Clock = UdpClose
  | Raise _ => closes (events (discover_headset w dp code)) = []
  end.
Proof.
  destruct (udp_socket_r w) as [e|] eqn:H1.
  { now rewrite (discover_socket_fails _ _ _ _ H1). }
  destruct (udp_bind_r w) as [e|] eqn:H2.
  { now rewrite (discover_bind_fails _ _ _ _ H1 H2). }
  destruct (udp_setsockopt_r w) as [e|] eqn:H3.
  { now rewrite (discover_setsockopt_fails _ _ _ _ H1 H2 H3). }
  destruct (str_encode code) as [data|e] eqn:H4.
  2:{ now rewrite (discover_encode_fails _ _ _ _ H1 H2 H3 H4). }
  destruct (udp_sendto_r w) as [e|] eqn:H5.
  { now rewrite (discover_send_fails _ _ _ _ _ H1 H2 H3 H4 H5). }
  rewrite (discover_listens w dp code data) by (repeat split; assumption).
  destruct (listen_closes (clock_start w) (clock_idle w) (inbound w))
    as (t & found & -> & Hc & _).
  unfold prepend, outcome, events. cbn [fst snd]. split.
  - unfold closes in *. rewrite !filter_app, Hc. reflexivity.
  - rewrite app_assoc. apply last_last.
Qed.

Lemma listen_found_inv (start idle : Q) (turns : list (Q * recv_result))
  (ip : pystr) :
  outcome (listen start turns idle) = Ok (Some ip) ->
  exists now p,
    In (now, Datagram response_bytes ip p) turns
    /\ expired start now = false.
Proof.
  induction turns as [|[now r] rest IH].
  - rewrite listen_idle. destruct (expired start idle); discriminate.
  - pose proof (loop_body_turn start now r) as T.
    remember (loop_body start now r) as m eqn:Em. symmetry in Em.
    destruct T; rewrite (listen_cons _ _ _ _ _ _ _ Em);
      unfold prepend, after, outcome; mred; try discriminate.
    + intro Hf. destruct (IH Hf) as (now' & p' & Hin & Hx).
      exists now', p'. split; [now right|assumption].
    + intro Hf. inversion Hf. subst. exists now, p.
      split; [now left|assumption].
Qed.

(** X2. An address returned by [discover_headset] is always the sender of
    an inbound datagram that carried exactly the response bytes and was
    received while the clock check of the loop still passed. *)
Theorem X2_found_address_is_a_responder (w : udp_world) (dp : N)
  (code ip : pystr) :
  outcome (discover_headset w dp code) = Ok (Some ip) ->
  exists now p,
    In (now, Datagram response_bytes ip p) (inbound w)
    /\ expired (clock_start w) now = false.
Proof.
  intro H. apply discover_found_inv in H as (data & _ & _ & H).
  now apply listen_found_inv in H.
Qed.

Lemma X2_found_address_is_a_responder_witness :
  exists now p,
    In (now, Datagram response_bytes headset_ip0 p) (inbound demo_udp)
    /\ expired (clock_start demo_udp) now = false.
Proof.
  exact (X2_found_address_is_a_responder demo_udp 5001 (lit "AB12")
           headset_ip0 eq_refl).
Defined.

Lemma listen_strays (start idle : Q) (pre rest : list (Q * recv_result)) :
  Forall (stray_in_time start) pre ->
  listen start (pre ++ rest) idle
  = prepend (List.concat (map (fun _ => [Clock; UdpRecvFrom 1024]) pre))
      (listen start rest idle).
Proof.
  induction 1 as [|[now r] pre (Hx & data & ip & p & text & Hr & Hd & Hn) _ IH].
  - unfold prepend. simpl. now destruct (listen start rest idle).
  - cbn [fst snd] in *. subst r. cbn [app].
    rewrite (listen_ignore _ _ _ _ _ _ text) by assumption.
    rewrite IH. unfold prepend. cbn [fst snd map List.concat].
    now rewrite <- app_assoc.
Qed.

Lemma receives_strays {A} (pre : list A) :
  receives (List.concat (map (fun _ => [Clock; UdpRecvFrom 1024]) pre))
  = map (fun _ => UdpRecvFrom 1024) pre.
Proof. induction pre as [|x pre IH]; [reflexivity|]. cbn. now f_equal. Qed.

(** X3. The first response wins even when it is not the first datagram:
    after any number of datagrams with other well-formed text, each
    received within the budget, a datagram with the response bytes received
    within the budget makes [discover_headset] return its sender; one
    receive was made per datagram up to that one and none for the
    datagrams behind it. *)
Theorem X3_response_after_strays (w : udp_world) (dp : N) (code : pystr)
  (data : bytes) (pre rest : list (Q * recv_result)) (now : Q) (ip : pystr)
  (p : N) :
  setup_ok w ->
  str_encode code = Ok data ->
  inbound w = pre ++ (now, Datagram response_bytes ip p) :: rest ->
  Forall (stray_in_time (clock_start w)) pre ->
  expired (clock_start w) now = false ->
  outcome (discover_headset w dp code) = Ok (Some ip)
  /\ receives (events (discover_headset w dp code))
     = map (fun _ => UdpRecvFrom 1024) pre ++ [UdpRecvFrom 1024].
Proof.
  intros Hs He Hi Hp Hx.
  rewrite (discover_listens w dp code data Hs He), Hi.
  rewrite (listen_strays _ _ pre _ Hp), (listen_match _ _ _ ip p rest Hx).
  unfold prepend, outcome, events. cbn [fst snd]. split; [reflexivity|].
  unfold receives. rewrite !filter_app.
  change (filter _ (List.concat ?l)) with (receives (List.concat l)).
  now rewrite receives_strays.
Qed.

Lemma stray_hello (start now : Q) (ip : pystr) (p : N) :
  expired start now = false ->
  stray_in_time start (now, Datagram (blit "hello") ip p).
Proof.
  intro E. split; [exact E|].
  exists (blit "hello"), ip, p, (lit "hello").
  repeat split. discriminate.
Qed.

Lemma X3_response_after_strays_witness :
  outcome (discover_headset late_answer_udp 5001 (lit "AB12"))
  = Ok (Some headset_ip0)
  /\ receives (events (discover_headset late_answer_udp 5001 (lit "AB12")))
     = [UdpRecvFrom 1024; UdpRecvFrom 1024].
Proof.
  exact (X3_response_after_strays late_answer_udp 5001 (lit "AB12")
           (blit "AB12")
           [(101%Q, Datagram (blit "hello") (lit "192.168.1.7") 40000)]
           [(104%Q, Datagram response_bytes (lit "192.168.1.50") 5001)]
           103%Q headset_ip0 5001
           (conj eq_refl (conj eq_refl (conj eq_refl eq_refl)))
           eq_refl eq_refl
           (Forall_cons _ (stray_hello 100%Q 101%Q (lit "192.168.1.7") 40000 eq_refl)
              (Forall_nil _))
           eq_refl).
Defined.

(** X4. The deadline is checked before every receive: once a clock reading
    is more than five seconds past the start, [discover_headset] gives up
    with "Discovery timeout reached." and no address, and whatever is still
    inbound, a response included, is never received. *)
Theorem X4_response_after_deadline_missed (w : udp_world) (dp : N)
  (code : pystr) (data : bytes) (pre rest : list (Q * recv_result))
  (now : Q) (r : recv_result) :
  setup_ok w ->
  str_encode code = Ok data ->
  inbound w = pre ++ (now, r) :: rest ->
  Forall (stray_in_time (clock_start w)) pre ->
  expired (clock_start w) now = true ->
  outcome (discover_headset w dp code) = Ok None
  /\ printed DiscoveryTimeout (events (discover_headset w dp code))
  /\ receives (events (discover_headset w dp code))
     = map (fun _ => UdpRecvFrom 1024) pre.
Proof.
  intros Hs He Hi Hp Hx.
  rewrite (discover_listens w dp code data Hs He), Hi.
  rewrite (listen_strays _ _ pre _ Hp), (listen_expired _ _ _ r rest Hx).
  unfold prepend, outcome, events, printed. cbn [fst snd].
  split; [reflexivity|]. split.
  - apply in_or_app. right. apply in_or_app. right. simpl. tauto.
  - unfold receives. rewrite !filter_app.
    change (filter _ (List.concat ?l)) with (receives (List.concat l)).
    rewrite receives_strays. cbn. now rewrite app_nil_r.
Qed.

Lemma X4_response_after_deadline_missed_witness :
  outcome (discover_headset too_late_udp 5001 (lit "AB12")) = Ok None
  /\ receives (events (discover_headset too_late_udp 5001 (lit "AB12")))
     = [UdpRecvFrom 1024].
Proof.
  destruct (X4_response_after_deadline_missed too_late_udp 5001 (lit "AB12")
              (blit "AB12")
              [(101%Q, Datagram (blit "hello") (lit "192.168.1.7") 40000)]
              [] 106%Q (Datagram response_bytes headset_ip0 5001)
              (conj eq_refl (conj eq_refl (conj eq_refl eq_refl)))
              eq_refl eq_refl
              (Forall_cons _ (stray_hello 100%Q 101%Q (lit "192.168.1.7") 40000 eq_refl)
              (Forall_nil _))
              eq_refl) as (H1 & _ & H3).
  split; [exact H1 | exact H3].
Defined.

(** X5. Once the socket is created, bound and in broadcast mode,
    [discover_headset] attempts exactly one broadcast, carrying the UTF-8
    bytes of the code to the discovery port, whatever is received
    afterwards and whether or not [sendto] succeeds; a code that cannot be
    encoded is not sent at all. *)
Theorem X5_one_broadcast (w : udp_world) (dp : N) (code : pystr) :
  udp_socket_r w = None -> udp_bind_r w = None ->
  udp_setsockopt_r w = None ->
  broadcasts (events (discover_headset w dp code))
  = match str_encode code with
    | Ok data => [UdpSendTo data dp]
    | Raise _ => []
    end.
Proof.
  intros H1 H2 H3.
  destruct (str_encode code) as [data|e] eqn:H4.
  2:{ now rewrite (discover_encode_fails _ _ _ _ H1 H2 H3 H4). }
  destruct (udp_sendto_r w) as [e|] eqn:H5.
  { now rewrite (discover_send_fails _ _ _ _ _ H1 H2 H3 H4 H5). }
  rewrite (discover_listens w dp code data) by (repeat split; assumption).
  destruct (listen_closes (clock_start w) (clock_idle w) (inbound w))
    as (t & found & -> & _ & Hb).
  unfold prepend, events, broadcasts in *. cbn [fst].
  rewrite !filter_app, Hb. reflexivity.
Qed.

Lemma X5_one_broadcast_witness :
  broadcasts (events (discover_headset chatter_udp 5001 (lit "AB12")))
  = [UdpSendTo (blit "AB12") 5001]
  /\ broadcasts (events (discover_headset chatter_udp 5001 [55296]))
     = [].
Proof.
  split.
  - exact (X5_one_broadcast chatter_udp 5001 (lit "AB12")
             eq_refl eq_refl eq_refl).
  - exact (X5_one_broadcast chatter_udp 5001 [55296] eq_refl eq_refl eq_refl).
Defined.

Lemma discover_outcome_listens (w : udp_world) (dp : N) (code : pystr)
  (data : bytes) :
  setup_ok w -> str_encode code = Ok data ->
  exists found, outcome (discover_headset w dp code) = Ok found.
Proof.
  intros Hs He. rewrite (discover_listens w dp code data Hs He).
  destruct (listen_closes (clock_start w) (clock_idle w) (inbound w))
    as (t & found & -> & _). now exists found.
Qed.

(** X6. The only exceptions that leave [discover_headset] are those of
    creating the socket, binding it and setting the broadcast option.  A
    code that cannot be encoded, a failed [sendto], a failed or timed-out
    [recvfrom] and undecodable datagrams all end in a return. *)
Theorem X6_discovery_raises_only_in_setup (w : udp_world) (dp : N)
  (code : pystr) (e : exn) :
  outcome (discover_headset w dp code) = Raise e
  <-> udp_socket_r w = Some e
      \/ (udp_socket_r w = None /\ udp_bind_r w = Some e)
      \/ (udp_socket_r w = None /\ udp_bind_r w = None
          /\ udp_setsockopt_r w = Some e).
Proof.
  destruct (udp_socket_r w) as [e1|] eqn:H1.
  { rewrite (discover_socket_fails _ _ _ _ H1). unfold outcome. cbn [snd].
    split; [intro H; left; congruence|].
    intros [H|[[H _]|[H _]]]; congruence. }
  destruct (udp_bind_r w) as [e2|] eqn:H2.
  { rewrite (discover_bind_fails _ _ _ _ H1 H2). unfold outcome. cbn [snd].
    split; [intro H; right; left; split; congruence|].
    intros [H|[[_ H]|[_ [H _]]]]; congruence. }
  destruct (udp_setsockopt_r w) as [e3|] eqn:H3.
  { rewrite (discover_setsockopt_fails _ _ _ _ H1 H2 H3).
    unfold outcome. cbn [snd].
    split; [intro H; right; right; repeat split; congruence|].
    intros [H|[[_ H]|[_ [_ H]]]]; congruence. }
  split.
  - intro H. exfalso.
    destruct (str_encode code) as [data|e4] eqn:H4.
    2:{ rewrite (discover_encode_fails _ _ _ _ H1 H2 H3 H4) in H.
        discriminate. }
    destruct (udp_sendto_r w) as [e5|] eqn:H5.
    { rewrite (discover_send_fails _ _ _ _ _ H1 H2 H3 H4 H5) in H.
      discriminate. }
    destruct (discover_outcome_listens w dp code data) as (found & E);
      [repeat split; assumption|assumption|].
    congruence.
  - intros [H|[[_ H]|[_ [_ H]]]]; discriminate.
Qed.

(** ** More on the transfer *)

(** X7. Once the packet is built, [send_data] never raises: every failure
    of a socket call and every answer of the headset ends in a return,
    after exactly one closing line on the console, printed last. *)
Theorem X7_send_data_always_returns (w : tcp_world) (payload : bytes)
  (file_name ip : pystr) (p : N) (pkt : bytes) :
  make_packet payload file_name = Ok pkt ->
  outcome (send_data w payload file_name ip p) = Ok tt
  /\ exists c,
       filter outcome_line (events (send_data w payload file_name ip p))
       = [Print c]
       /\ last (events (send_data w payload file_name ip p)) Clock = Print c.
Proof.
  intro Hp. unfold send_data. rewrite Hp.
  mrun; (split; [reflexivity|]); eexists; split; reflexivity.
Qed.

Lemma X7_send_data_always_returns_witness :
  outcome (send_data refusing_tcp (blit "0123456789") (lit "Chair.glb")
             headset_ip0 5000) = Ok tt.
Proof.
  exact (proj1 (X7_send_data_always_returns refusing_tcp (blit "0123456789")
                  (lit "Chair.glb") headset_ip0 5000
                  (be_bytes 4 9 ++ blit "Chair.glb" ++ be_bytes 8 10
                   ++ blit "0123456789") eq_refl)).
Defined.

(** X8. When a socket call of [send_data] raises, the first such exception
    decides the closing line: "Connection timed out." for whatever
    [except socket.timeout] catches, that is the socket's own timeout and,
    [socket.timeout] being [TimeoutError], an [OSError] with errno
    ETIMEDOUT, whether it came from [connect], [sendall] or [recv]; and the
    line with the exception for any other; success is not printed. *)
Theorem X8_failure_line (w : tcp_world) (payload : bytes)
  (file_name ip : pystr) (p : N) (pkt : bytes) (e : exn) :
  make_packet payload file_name = Ok pkt ->
  first_failure w = Some e ->
  filter outcome_line (events (send_data w payload file_name ip p))
  = [Print (if is_socket_timeout e then ConnectionTimedOut
            else TransferError e)].
Proof.
  intros Hp Hf. unfold send_data, first_failure in *. rewrite Hp.
  destruct (tcp_socket_r w) as [e1|].
  { inversion Hf. subst. mred. destruct (is_socket_timeout e); reflexivity. }
  destruct (tcp_connect_r w) as [e2|].
  { inversion Hf. subst. mred. destruct (is_socket_timeout e); reflexivity. }
  destruct (tcp_sendall_r w) as [e3|].
  { inversion Hf. subst. mred. destruct (is_socket_timeout e); reflexivity. }
  destruct (tcp_recv_r w) as [ack|e4]; [discriminate|].
  inversion Hf. subst. mred. destruct (is_socket_timeout e); reflexivity.
Qed.

Lemma X8_failure_line_witness :
  filter outcome_line
    (events (send_data silent_tcp (blit "0123456789") (lit "Chair.glb")
               headset_ip0 5000))
  = [Print ConnectionTimedOut]
  /\ filter outcome_line
       (events (send_data unanswered_tcp (blit "0123456789")
                  (lit "Chair.glb") headset_ip0 5000))
     = [Print ConnectionTimedOut]
  /\ filter outcome_line
       (events (send_data refusing_tcp (blit "0123456789")
                  (lit "Chair.glb") headset_ip0 5000))
     = [Print (TransferError (OSError 111))].
Proof.
  pose (pkt := be_bytes 4 9 ++ blit "Chair.glb" ++ be_bytes 8 10
               ++ blit "0123456789").
  split; [|split].
  - exact (X8_failure_line silent_tcp (blit "0123456789") (lit "Chair.glb")
             headset_ip0 5000 pkt SocketTimeout eq_refl eq_refl).
  - exact (X8_failure_line unanswered_tcp (blit "0123456789")
             (lit "Chair.glb") headset_ip0 5000 pkt (OSError 110)
             eq_refl eq_refl).
  - exact (X8_failure_line refusing_tcp (blit "0123456789") (lit "Chair.glb")
             headset_ip0 5000 pkt (OSError 111) eq_refl eq_refl).
Defined.

(** X9. The socket calls of [send_data] are always an initial part of the
    sequence socket, settimeout(30), connect, sendall of the whole packet,
    one recv(1024), close: nothing is sent before the connection is made,
    nothing is read before the packet is written, and nothing is retried. *)
Theorem X9_exchange_in_order (w : tcp_world) (payload : bytes)
  (file_name ip : pystr) (p : N) (pkt : bytes) :
  make_packet payload file_name = Ok pkt ->
  exists n,
    filter is_tcp (events (send_data w payload file_name ip p))
    = firstn n (full_exchange ip p pkt).
Proof.
  intro Hp. unfold send_data. rewrite Hp.
  destruct (tcp_socket_r w) as [e1|].
  { exists 1%nat. mred. now destruct (is_socket_timeout e1). }
  destruct (tcp_connect_r w) as [e2|].
  { exists 3%nat. mred. now destruct (is_socket_timeout e2). }
  destruct (tcp_sendall_r w) as [e3|].
  { exists 4%nat. mred. now destruct (is_socket_timeout e3). }
  destruct (tcp_recv_r w) as [ack|e4].
  2:{ exists 5%nat. mred. now destruct (is_socket_timeout e4). }
  exists 6%nat. mrun; reflexivity.
Qed.

Lemma X9_exchange_in_order_witness :
  exists n,
    filter is_tcp
      (events (send_data refusing_tcp (blit "0123456789") (lit "Chair.glb")
                 headset_ip0 5000))
    = firstn n (full_exchange headset_ip0 5000
                  (be_bytes 4 9 ++ blit "Chair.glb" ++ be_bytes 8 10
                   ++ blit "0123456789")).
Proof.
  exact (X9_exchange_in_order refusing_tcp (blit "0123456789")
           (lit "Chair.glb") headset_ip0 5000 _ eq_refl).
Defined.

Lemma send_data_returns (w : tcp_world) (payload : bytes)
  (file_name ip : pystr) (p : N) (pkt : bytes) :
  make_packet payload file_name = Ok pkt ->
  outcome (send_data w payload file_name ip p) = Ok tt.
Proof. intro Hp. unfold send_data. rewrite Hp. mrun; reflexivity. Qed.

Lemma send_data_no_packet (w : tcp_world) (payload : bytes)
  (file_name ip : pystr) (p : N) (e : exn) :
  make_packet payload file_name = Raise e ->
  send_data w payload file_name ip p = ([], Raise e).
Proof. intro Hp. unfold send_data. rewrite Hp. reflexivity. Qed.

(** When the packet cannot be built. *)
Lemma make_packet_raises (payload : bytes) (file_name : pystr) (e : exn) :
  make_packet payload file_name = Raise e
  <-> (utf8_encode file_name = None /\ e = UnicodeEncodeError)
      \/ (exists name_bytes,
            utf8_encode file_name = Some name_bytes
            /\ (2 ^ 32 <= len name_bytes \/ 2 ^ 64 <= len payload)
            /\ e = StructError).
Proof.
  unfold make_packet, str_encode, struct_pack_be.
  change (2 ^ (8 * N.of_nat 4)) with (2 ^ 32).
  change (2 ^ (8 * N.of_nat 8)) with (2 ^ 64).
  destruct (utf8_encode file_name) as [nb|].
  2:{ split.
      - intro H. left. split; congruence.
      - intros [[_ ->]|(nb & H & _)]; [reflexivity|discriminate]. }
  destruct (len nb <? 2 ^ 32) eqn:E1.
  - destruct (len payload <? 2 ^ 64) eqn:E2.
    + apply N.ltb_lt in E1, E2. split; [discriminate|].
      intros [[H _]|(nb' & H & [L|L] & _)]; [discriminate| |].
      * inversion H. subst. lia.
      * lia.
    + apply N.ltb_ge in E2. split.
      * intro H. right. exists nb. repeat split; [now right|congruence].
      * intros [[H _]|(nb' & _ & _ & ->)]; [discriminate|reflexivity].
  - apply N.ltb_ge in E1. split.
    + intro H. right. exists nb. repeat split; [now left|congruence].
    + intros [[H _]|(nb' & _ & _ & ->)]; [discriminate|reflexivity].
Qed.

(** X10. [send_data] raises exactly when the packet cannot be built: the
    file name has no UTF-8 encoding (a lone surrogate), or the name is at
    least 2^32 bytes or the payload at least 2^64 bytes long.  It then
    raises before creating a socket and prints nothing. *)
Theorem X10_send_data_raises_iff (w : tcp_world) (payload : bytes)
  (file_name ip : pystr) (p : N) (e : exn) :
  (outcome (send_data w payload file_name ip p) = Raise e
   <-> (utf8_encode file_name = None /\ e = UnicodeEncodeError)
       \/ (exists name_bytes,
             utf8_encode file_name = Some name_bytes
             /\ (2 ^ 32 <= len name_bytes \/ 2 ^ 64 <= len payload)
             /\ e = StructError))
  /\ (outcome (send_data w payload file_name ip p) = Raise e ->
      events (send_data w payload file_name ip p) = []).
Proof.
  pose proof (make_packet_raises payload file_name e) as R.
  destruct (make_packet payload file_name) as [pkt|e'] eqn:Hp.
  - rewrite (send_data_returns w payload file_name ip p pkt Hp).
    split; [|discriminate]. split; [discriminate|].
    intro H. apply R in H. discriminate.
  - rewrite (send_data_no_packet w payload file_name ip p e' Hp).
    unfold outcome, events. cbn [fst snd]. split; [|reflexivity].
    split.
    + intro H. apply R. congruence.
    + intro H. apply R in H. congruence.
Qed.

(** Deciding the range tests of the decoder. *)
Ltac decide_bool :=
  unfold is_cont, is_surrogate, cp2, cp3, cp4;
  repeat match goal with
         | |- context [?a <? ?b] => destruct (N.ltb_spec a b)
         | |- context [?a <=? ?b] => destruct (N.leb_spec a b)
         end;
  (reflexivity || lia).

Ltac head_cond :=
  match goal with
  | |- (if ?c then _ else _) = _ =>
    let Hc := fresh "Hc" in
    (assert (Hc : c = true) by decide_bool)
    || (assert (Hc : c = false) by decide_bool);
    rewrite Hc; clear Hc; cbv iota
  end.

Lemma Some_eq {A} (a b : A) : Some a = Some b -> a = b.
Proof. intro H. now injection H. Qed.

Lemma byte_small (n : N) : n < 256 -> Byte.to_N (byte_of_N n) = n.
Proof. intro H. rewrite byte_of_N_value. now apply N.mod_small. Qed.

Lemma utf8_decode_cons (x0 : byte) (r0 : bytes) :
  utf8_decode (x0 :: r0)
  = let b0 := Byte.to_N x0 in
    if b0 <? 128 then option_map (cons b0) (utf8_decode r0)
    else match r0 with
    | [] => None
    | x1 :: r1 =>
      let b1 := Byte.to_N x1 in
      if negb (is_cont b1) then None
      else if (192 <=? b0) && (b0 <? 224) then
        if 128 <=? cp2 b0 b1
        then option_map (cons (cp2 b0 b1)) (utf8_decode r1)
        else None
      else match r1 with
      | [] => None
      | x2 :: r2 =>
        let b2 := Byte.to_N x2 in
        if negb (is_cont b2) then None
        else if (224 <=? b0) && (b0 <? 240) then
          if (2048 <=? cp3 b0 b1 b2) && negb (is_surrogate (cp3 b0 b1 b2))
          then option_map (cons (cp3 b0 b1 b2)) (utf8_decode r2)
          else None
        else match r2 with
        | [] => None
        | x3 :: r3 =>
          let b3 := Byte.to_N x3 in
          if negb (is_cont b3) then None
          else if (240 <=? b0) && (b0 <? 248) then
            if (65536 <=? cp4 b0 b1 b2 b3) && (cp4 b0 b1 b2 b3 <? 1114112)
            then option_map (cons (cp4 b0 b1 b2 b3)) (utf8_decode r3)
            else None
          else None
        end
      end
    end.
Proof. reflexivity. Qed.

Ltac decode_head :=
  cbn [app]; rewrite utf8_decode_cons; cbv zeta iota;
  rewrite !byte_small by lia; repeat head_cond.

(** The bytes written for one code point are read back as that code
    point. *)
Lemma utf8_decode_encode_cp (c : N) (h rest : bytes) :
  utf8_encode_cp c = Some h ->
  utf8_decode (h ++ rest) = option_map (cons c) (utf8_decode rest).
Proof.
  unfold utf8_encode_cp.
  pose proof (N.div_mod c 64 ltac:(lia)) as D1.
  pose proof (N.mod_upper_bound c 64 ltac:(lia)) as B1.
  pose proof (N.div_mod (c / 64) 64 ltac:(lia)) as D2.
  pose proof (N.mod_upper_bound (c / 64) 64 ltac:(lia)) as B2.
  pose proof (N.div_mod (c / 64 / 64) 64 ltac:(lia)) as D3.
  pose proof (N.mod_upper_bound (c / 64 / 64) 64 ltac:(lia)) as B3.
  replace (c / 4096) with (c / 64 / 64) by (now rewrite N.Div0.div_div).
  replace (c / 262144) with (c / 64 / 64 / 64)
    by (now rewrite !N.Div0.div_div).
  remember (c mod 64) as r1 eqn:X1. remember (c / 64) as q1 eqn:Y1.
  remember (q1 mod 64) as r2 eqn:X2. remember (q1 / 64) as q2 eqn:Y2.
  remember (q2 mod 64) as r3 eqn:X3. remember (q2 / 64) as q3 eqn:Y3.
  clear X1 Y1 X2 Y2 X3 Y3.
  destruct (N.ltb_spec c 128).
  { intro Eh. apply Some_eq in Eh. subst h. decode_head. reflexivity. }
  destruct (N.ltb_spec c 2048).
  { intro Eh. apply Some_eq in Eh. subst h. decode_head.
    do 2 f_equal. unfold cp2. lia. }
  destruct (N.ltb_spec c 65536).
  { destruct (is_surrogate c) eqn:S; [discriminate|].
    unfold is_surrogate in S.
    intro Eh. apply Some_eq in Eh. subst h. decode_head.
    replace (cp3 (224 + q2) (128 + r2) (128 + r1)) with c
      by (unfold cp3; lia).
    unfold is_surrogate. rewrite S.
    destruct (N.leb_spec 2048 c); [reflexivity|lia]. }
  destruct (N.ltb_spec c 1114112); [|discriminate].
  intro Eh. apply Some_eq in Eh. subst h. decode_head.
  do 2 f_equal. unfold cp4. lia.
Qed.

(** Decoding undoes encoding. *)
Lemma utf8_decode_encode (s : pystr) (bs : bytes) :
  utf8_encode s = Some bs -> utf8_decode bs = Some s.
Proof.
  revert bs. induction s as [|c r IH]; intros bs H; cbn [utf8_encode] in H.
  - apply Some_eq in H. now subst bs.
  - destruct (utf8_encode_cp c) as [h|] eqn:Ec; [|discriminate].
    destruct (utf8_encode r) as [t|]; [|discriminate].
    apply Some_eq in H. subst bs.
    rewrite (utf8_decode_encode_cp c h t Ec), (IH t eq_refl). reflexivity.
Qed.

Lemma Ok_inj {A} (a b : A) : Ok a = Ok b -> a = b.
Proof. intro H. now injection H. Qed.

(** X11. The framing is unambiguous: two calls that build the same packet
    were given the same file name and the same payload. *)
Theorem X11_packet_determines_fields (payload payload' : bytes)
  (file_name file_name' : pystr) (pkt : bytes) :
  make_packet payload file_name = Ok pkt ->
  make_packet payload' file_name' = Ok pkt ->
  file_name = file_name' /\ payload = payload'.
Proof.
  unfold make_packet, str_encode, struct_pack_be.
  destruct (utf8_encode file_name) as [nb|] eqn:En; [|discriminate].
  destruct (utf8_encode file_name') as [nb'|] eqn:En'; [|discriminate].
  destruct (len nb <? 2 ^ (8 * N.of_nat 4)) eqn:E1; [|discriminate].
  destruct (len payload <? 2 ^ (8 * N.of_nat 8)) eqn:E2; [|discriminate].
  destruct (len nb' <? 2 ^ (8 * N.of_nat 4)) eqn:E1'; [|discriminate].
  destruct (len payload' <? 2 ^ (8 * N.of_nat 8)) eqn:E2'; [|discriminate].
  apply N.ltb_lt in E1, E2, E1', E2'.
  intros H H'. apply Ok_inj in H, H'.
  assert (Hp' : be_bytes 4 (len nb') ++ nb' ++ be_bytes 8 (len payload')
                ++ payload'
                = be_bytes 4 (len nb) ++ nb ++ be_bytes 8 (len payload)
                  ++ payload) by congruence.
  clear H H'.
  pose proof (f_equal (firstn 4) Hp') as F1.
  rewrite !(firstn_prefix _ _ 4 (be_bytes_length 4 _)) in F1.
  apply (f_equal be_value) in F1.
  rewrite !be_value_be_bytes, !N.mod_small in F1 by assumption.
  assert (L : List.length nb = List.length nb')
    by (unfold len in F1; lia).
  pose proof (f_equal (skipn 4) Hp') as F2.
  rewrite !(skipn_prefix _ _ 4 (be_bytes_length 4 _)) in F2.
  pose proof (f_equal (firstn (List.length nb)) F2) as F3.
  rewrite (firstn_prefix nb _ _ eq_refl) in F3.
  rewrite (firstn_prefix nb' _ _ (eq_sym L)) in F3.
  subst nb'. split.
  { apply utf8_decode_encode in En, En'. congruence. }
  apply app_inv_head in F2.
  apply (f_equal (skipn 8)) in F2.
  now rewrite !(skipn_prefix _ _ 8 (be_bytes_length 8 _)) in F2.
Qed.

Lemma X11_packet_determines_fields_witness :
  lit "Chair.glb" = lit "Chair.glb"
  /\ blit "0123456789" = blit "0123456789".
Proof.
  exact (X11_packet_determines_fields (blit "0123456789") (blit "0123456789")
           (lit "Chair.glb") (lit "Chair.glb")
           (be_bytes 4 9 ++ blit "Chair.glb" ++ be_bytes 8 10
            ++ blit "0123456789") eq_refl eq_refl).
Defined.

(** ** More on [execute] *)

Lemma duplicated_returning (h : host) (objs : list bobject) :
  Forall (mesh_calls_return h) objs ->
  duplicated h objs
  = Ok (map (fun o => ob_name o ++ lit "_export")
            (filter (gives_mesh h) objs)).
Proof.
  induction 1 as [|o rest [Hm|[Hm Hc]] _ IH]; [reflexivity| |];
    cbn [duplicated filter]; unfold gives_mesh at 1; rewrite Hm.
  - exact IH.
  - now rewrite Hc, IH.
Qed.



Lemma valid_selection_active (ctx : context) :
  valid_selection ctx = true ->
  exists a,
    active ctx = Some a
    /\ is_empty (selected_objects ctx) = false
    /\ among a (selected_objects ctx) = true.
Proof.
  unfold valid_selection.
  destruct (is_empty (selected_objects ctx)); [discriminate|].
  destruct (active ctx) as [a|]; [|discriminate]. eauto.
Qed.

Ltac table_case t Ht :=
  cbn [is_empty]; mred; rewrite ?app_nil_l; unfold outcome, events;
  cbn [fst snd];
  rewrite ?reports_app, ?(glue_no_reports t Ht); split; reflexivity.

Lemma export_and_start_table (h : host) (ctx : context) (ip : pystr) :
  outcome (export_and_start h ctx ip) = verdict h ctx ip
  /\ reports (events (export_and_start h ctx ip)) = told h ctx ip.
Proof.
  destruct (valid_selection ctx) eqn:V.
  2:{ rewrite (export_and_start_invalid h ctx ip V).
      unfold verdict, told. rewrite V. cbn [negb].
      destruct (is_empty (selected_objects ctx)); destruct (active ctx);
        now split. }
  destruct (valid_selection_active ctx V) as (a & Ha & He & Hin).
  unfold export_and_start, verdict, told, first_raise.
  rewrite Ha, V, He, Hin. cbn [negb]. cbv zeta.
  set (fn := clean_name h (ob_name a) ++ lit ".glb").
  destruct (duplicate_events h (selected_objects ctx)) as (t & E & Ht).
  destruct (depsgraph_r h) as [e|]; [now split|].
  mred. rewrite E. unfold cancel.
  destruct (duplicated h (selected_objects ctx)) as [[|d ds]|e];
    [table_case t Ht| |table_case t Ht].
  cbn [is_empty].
  destruct (export_r h) as [e|]; [table_case t Ht|].
  destruct (restore_r h) as [e|]; [table_case t Ht|].
  destruct (read_r h) as [data|e]; [|table_case t Ht].
  destruct (remove_r h) as [e|]; [table_case t Ht|].
  destruct (thread_r h) as [e|]; table_case t Ht.
Qed.

(** X13. With a good code and an address found by discovery, [execute]
    checks in this order and reports the first failure only: nothing
    selected; active object missing or not selected; no copy made; the
    exported file cannot be read.  When one of the unguarded calls raises
    (into Blender, [os.remove], [Thread.start]), nothing is reported and
    the exception leaves [execute]; otherwise the transfer is reported as
    started.  What it returns follows the same table. *)
Theorem X13_order_of_checks (h : host) (w : udp_world) (ctx : context)
  (c : N) (ip : pystr) :
  valid_code h ctx = true ->
  outcome (discover_headset w 5001 (normalized_code h ctx))
  = Ok (Some (c :: ip)) ->
  reports (events (execute h w ctx)) = told h ctx (c :: ip)
  /\ outcome (execute h w ctx) = verdict h ctx (c :: ip).
Proof.
  intros V D.
  pose proof (discover_events w 5001 (normalized_code h ctx)) as Hd.
  destruct (discover_headset w 5001 (normalized_code h ctx)) as [td r] eqn:E.
  unfold outcome, events in D, Hd. cbn [fst snd] in D, Hd. subst r.
  rewrite (execute_discovered h w ctx td c ip V E).
  destruct (export_and_start_table h ctx (c :: ip)) as (Ho & Hr).
  unfold prepend, outcome, events in *. cbn [fst snd].
  rewrite reports_app, (discovery_no_reports 5001 td Hd). now split.
Qed.

Lemma X13_order_of_checks_witness :
  (reports (events (execute demo_host demo_udp two_selected))
   = [(ERROR, ActiveNotSelected)]
   /\ outcome (execute demo_host demo_udp two_selected)
      = Ok (CANCELLED, None))
  /\ (reports (events (execute failing_export_host demo_udp demo_context))
      = []
      /\ outcome (execute failing_export_host demo_udp demo_context)
         = Raise RuntimeError).
Proof.
  split.
  - exact (X13_order_of_checks demo_host demo_udp two_selected 49
             (lit "92.168.1.42") eq_refl eq_refl).
  - exact (X13_order_of_checks failing_export_host demo_udp demo_context 49
             (lit "92.168.1.42") eq_refl eq_refl).
Defined.

Lemma verdict_finished (h : host) (ctx : context) (ip : pystr)
  (j : option job) :
  verdict h ctx ip = Ok (FINISHED, j)
  <-> exists a data d ds,
        active ctx = Some a
        /\ valid_selection ctx = true
        /\ depsgraph_r h = None
        /\ duplicated h (selected_objects ctx) = Ok (d :: ds)
        /\ export_r h = None
        /\ restore_r h = None
        /\ read_r h = Ok data
        /\ remove_r h = None
        /\ thread_r h = None
        /\ j = Some {| job_data := data;
                       job_name := clean_name h (ob_name a) ++ lit ".glb";
                       job_ip := ip; job_port := 5000 |}.
Proof.
  unfold verdict, first_raise. split.
  - destruct (active ctx) as [a|]; [|discriminate].
    destruct (valid_selection ctx); [|discriminate].
    destruct (depsgraph_r h) as [e|]; [discriminate|].
    destruct (duplicated h (selected_objects ctx)) as [[|d ds]|e];
      [discriminate| |discriminate].
    destruct (export_r h) as [e|]; [discriminate|].
    destruct (restore_r h) as [e|]; [discriminate|].
    destruct (read_r h) as [data|e]; [|discriminate].
    destruct (remove_r h) as [e|]; [discriminate|].
    destruct (thread_r h) as [e|]; [discriminate|].
    intro H. exists a, data, d, ds. repeat split. congruence.
  - intros (a & data & d & ds & -> & -> & -> & -> & -> & -> & -> & -> & ->
            & ->).
    reflexivity.
Qed.

(** X14. [execute] returns [FINISHED] exactly when the code is good,
    discovery returned a non-empty address, the active object is among a
    non-empty selection, every call into Blender returned and at least one
    copy was made, the exported file could be read, and neither
    [os.remove] nor [Thread.start] raised.  The worker is then given the
    bytes read, the cleaned name of the active object followed by ".glb",
    the discovered address and port 5000. *)
Theorem X14_finished_iff (h : host) (w : udp_world) (ctx : context)
  (j : option job) :
  outcome (execute h w ctx) = Ok (FINISHED, j)
  <-> valid_code h ctx = true
      /\ exists c ip a data d ds,
           outcome (discover_headset w 5001 (normalized_code h ctx))
           = Ok (Some (c :: ip))
           /\ active ctx = Some a
           /\ valid_selection ctx = true
           /\ depsgraph_r h = None
           /\ duplicated h (selected_objects ctx) = Ok (d :: ds)
           /\ export_r h = None
           /\ restore_r h = None
           /\ read_r h = Ok data
           /\ remove_r h = None
           /\ thread_r h = None
           /\ j = Some {| job_data := data;
                          job_name := clean_name h (ob_name a) ++ lit ".glb";
                          job_ip := c :: ip; job_port := 5000 |}.
Proof.
  split.
  - intro H.
    destruct (execute_shape h w ctx) as [V|td e V D|td found V D F|td c ip V D _];
      unfold outcome in H; cbn [snd] in H; try discriminate.
    split; [exact V|].
    destruct (export_and_start_table h ctx (c :: ip)) as (Ho & _).
    unfold prepend, outcome in *. cbn [snd] in H. rewrite Ho in H.
    apply verdict_finished in H as (a & data & d & ds & H).
    exists c, ip, a, data, d, ds. rewrite D. cbn [snd]. now split.
  - intros (V & c & ip & a & data & d & ds & D & H).
    destruct (discover_headset w 5001 (normalized_code h ctx)) as [td r] eqn:E.
    unfold outcome in D. cbn [snd] in D. subst r.
    rewrite (execute_discovered h w ctx td c ip V E).
    destruct (export_and_start_table h ctx (c :: ip)) as (Ho & _).
    unfold prepend, outcome in *. cbn [snd]. rewrite Ho.
    apply verdict_finished. now exists a, data, d, ds.
Qed.

Lemma verdict_raises (h : host) (ctx : context) (ip : pystr) (e : exn) :
  verdict h ctx ip = Raise e
  <-> valid_selection ctx = true /\ first_raise h ctx = Some e.
Proof.
  unfold verdict. split.
  - destruct (active ctx) as [a|]; [|discriminate].
    destruct (valid_selection ctx); [|discriminate].
    destruct (first_raise h ctx) as [e'|].
    + intro H. split; [reflexivity|congruence].
    + destruct (duplicated h (selected_objects ctx)) as [[|d ds]|e'];
        try discriminate.
      destruct (read_r h); discriminate.
  - intros (V & F).
    destruct (valid_selection_active ctx V) as (a & -> & _).
    now rewrite V, F.
Qed.

(** X15. An exception leaves [execute] exactly when one of its unguarded
    calls raises it: discovery (creating, binding or configuring the
    socket), or, with an address found and a good selection, the first of
    [evaluated_depsgraph_get], the calls of the copying loop, the export,
    the clean-up, [os.remove] and [Thread.start] that raises.  A file that
    cannot be read never does.  In every such case nothing was reported
    and no worker was started. *)
Theorem X15_execute_raises_iff (h : host) (w : udp_world) (tw : tcp_world)
  (ctx : context) (e : exn) :
  (outcome (execute h w ctx) = Raise e
   <-> valid_code h ctx = true
       /\ (outcome (discover_headset w 5001 (normalized_code h ctx)) = Raise e
           \/ exists c ip,
                outcome (discover_headset w 5001 (normalized_code h ctx))
                = Ok (Some (c :: ip))
                /\ valid_selection ctx = true
                /\ first_raise h ctx = Some e))
  /\ (outcome (execute h w ctx) = Raise e ->
      reports (events (execute h w ctx)) = []
      /\ worker_thread (invoke h w tw ctx) = None).
Proof.
  split.
  - split.
    + intro H.
      destruct (execute_shape h w ctx)
        as [V|td e' V D|td found V D F|td c ip V D _];
        unfold outcome in H; cbn [snd] in H; try discriminate.
      * split; [exact V|]. left. rewrite D. unfold outcome. cbn [snd].
        congruence.
      * split; [exact V|]. right.
        destruct (export_and_start_table h ctx (c :: ip)) as (Ho & _).
        unfold prepend, outcome in *. cbn [snd] in H. rewrite Ho in H.
        apply verdict_raises in H as (Vs & F).
        exists c, ip. rewrite D. cbn [snd]. now repeat split.
    + intros (V & [D|(c & ip & D & Vs & F)]).
      * destruct (discover_headset w 5001 (normalized_code h ctx))
          as [td r] eqn:E.
        unfold outcome in D. cbn [snd] in D. subst r.
        now rewrite (execute_discovery_raises h w ctx td e V E).
      * destruct (discover_headset w 5001 (normalized_code h ctx))
          as [td r] eqn:E.
        unfold outcome in D. cbn [snd] in D. subst r.
        rewrite (execute_discovered h w ctx td c ip V E).
        destruct (export_and_start_table h ctx (c :: ip)) as (Ho & _).
        unfold prepend, outcome in *. cbn [snd]. rewrite Ho.
        now apply verdict_raises.
  - intro H. split; [now apply (execute_raises h w ctx e)|].
    unfold invoke. cbn [worker_thread]. now rewrite H.
Qed.

(** ** More on the pairing code *)

Lemma lstrip_spaces (ws s : pystr) :
  all_spaces ws -> lstrip (ws ++ s) = lstrip s.
Proof.
  induction 1 as [|c ws Hc _ IH]; [reflexivity|].
  cbn [app lstrip]. now rewrite Hc.
Qed.

Lemma lstrip_app (s ws : pystr) :
  all_spaces ws ->
  lstrip (s ++ ws)
  = match lstrip s with
    | [] => []
    | c :: r => (c :: r) ++ ws
    end.
Proof.
  intro Hw. induction s as [|c s IH].
  - cbn [app lstrip]. rewrite <- (app_nil_r ws).
    now rewrite (lstrip_spaces ws [] Hw).
  - cbn [app lstrip]. destruct (is_space c); [exact IH|reflexivity].
Qed.

Lemma all_spaces_rev (ws : pystr) : all_spaces ws -> all_spaces (rev ws).
Proof.
  unfold all_spaces. rewrite !Forall_forall. intros H c Hc.
  apply H. now apply in_rev.
Qed.

Lemma strip_padding (ws s ws' : pystr) :
  all_spaces ws -> all_spaces ws' -> strip (ws ++ s ++ ws') = strip s.
Proof.
  intros Hw Hw'. unfold strip.
  rewrite (lstrip_spaces ws _ Hw), (lstrip_app s ws' Hw').
  destruct (lstrip s) as [|c r]; [reflexivity|].
  rewrite rev_app_distr.
  now rewrite (lstrip_spaces (rev ws') _ (all_spaces_rev ws' Hw')).
Qed.

(** X16. White space around the connection code does not matter: padding
    the code on either side with any characters that [str.isspace] accepts
    gives the very same run of [execute]. *)
Theorem X16_code_padding_ignored (h : host) (w : udp_world) (ctx : context)
  (ws ws' : pystr) :
  all_spaces ws -> all_spaces ws' ->
  execute h w (with_code ctx (ws ++ headset_connection_code ctx ++ ws'))
  = execute h w ctx.
Proof.
  intros Hw Hw'. unfold execute, with_code.
  cbn [headset_connection_code selected_objects active].
  now rewrite (strip_padding ws _ ws' Hw Hw').
Qed.

Lemma X16_code_padding_ignored_witness :
  execute demo_host demo_udp
    (with_code demo_context (lit "  " ++ lit "ab12" ++ [9; 10]))
  = execute demo_host demo_udp demo_context.
Proof.
  apply (X16_code_padding_ignored demo_host demo_udp demo_context
           (lit "  ") [9; 10]); repeat constructor.
Defined.

(** X17. When discovery returns without an address, [execute] stops
    there: the trace is that of discovery followed by the one report
    "Could not discover headset on the network."; the selection is not
    looked at, nothing is exported, read or removed and no thread is
    started. *)
Theorem X17_nothing_exported_without_headset (h : host) (w : udp_world)
  (ctx : context) :
  valid_code h ctx = true ->
  outcome (discover_headset w 5001 (normalized_code h ctx)) = Ok None ->
  execute h w ctx
  = (events (discover_headset w 5001 (normalized_code h ctx))
     ++ [Report ERROR NotDiscovered], Ok (CANCELLED, None))
  /\ forallb (fun ev => match ev with
                        | ExportGlb _ _ | ReadFile _ | RemoveFile _
                        | ThreadStart => false
                        | _ => true
                        end) (events (execute h w ctx)) = true.
Proof.
  intros V D.
  pose proof (discover_events w 5001 (normalized_code h ctx)) as Hd.
  destruct (discover_headset w 5001 (normalized_code h ctx)) as [td r] eqn:E.
  unfold outcome, events in *. cbn [fst snd] in *. subst r.
  rewrite (execute_not_discovered h w ctx td None V E (or_introl eq_refl)).
  cbn [fst]. split; [reflexivity|].
  rewrite forallb_app. cbn. rewrite andb_true_r.
  revert Hd. apply forallb_weaken. now intros [].
Qed.

Lemma X17_nothing_exported_without_headset_witness :
  execute demo_host chatter_udp demo_context
  = (events (discover_headset chatter_udp 5001 (lit "AB12"))
     ++ [Report ERROR NotDiscovered], Ok (CANCELLED, None)).
Proof.
  exact (proj1 (X17_nothing_exported_without_headset demo_host chatter_udp
                  demo_context eq_refl eq_refl)).
Defined.

(** ** From the broadcast to the transfer *)

Lemma execute_finished_inv (h : host) (w : udp_world) (ctx : context)
  (rc : retcode) (j : job) :
  outcome (execute h w ctx) = Ok (rc, Some j) ->
  exists c ip a data,
    outcome (discover_headset w 5001 (normalized_code h ctx))
    = Ok (Some (c :: ip))
    /\ active ctx = Some a
    /\ read_r h = Ok data
    /\ j = {| job_data := data;
              job_name := clean_name h (ob_name a) ++ lit ".glb";
              job_ip := c :: ip; job_port := 5000 |}
    /\ valid_selection ctx = true
    /\ export_r h = None
    /\ exists d ds, duplicated h (selected_objects ctx) = Ok (d :: ds).
Proof.
  intro H.
  destruct (execute_returns h w ctx rc (Some j) H)
    as [(_ & X & _)|(-> & _)]; [discriminate|].
  destruct (execute_shape h w ctx) as [V|td e V D|td found V D F|td c ip V D _];
    unfold outcome in H; cbn [snd] in H; try discriminate.
  destruct (export_and_start_table h ctx (c :: ip)) as (Ho & _).
  unfold prepend, outcome in *. cbn [snd] in H. rewrite Ho in H.
  apply verdict_finished
    in H as (a & data & d & ds & Ha & Vs & _ & Hd & He & _ & Hr & _ & _ & Hj).
  exists c, ip, a, data. rewrite D. cbn [snd].
  repeat split; try assumption; [congruence|now exists d, ds].
Qed.

Lemma worker_inv (h : host) (uw : udp_world) (tw : tcp_world) (ctx : context)
  (m : M unit) :
  worker_thread (invoke h uw tw ctx) = Some m ->
  exists c ip a data,
    outcome (discover_headset uw 5001 (normalized_code h ctx))
    = Ok (Some (c :: ip))
    /\ active ctx = Some a
    /\ read_r h = Ok data
    /\ m = send_data tw data (clean_name h (ob_name a) ++ lit ".glb")
             (c :: ip) 5000.
Proof.
  unfold invoke. cbn [worker_thread].
  destruct (outcome (execute h uw ctx)) as [[rc [j|]]|e] eqn:O;
    try discriminate.
  destruct (execute_finished_inv h uw ctx rc j O)
    as (c & ip & a & data & D & Ha & Hr & -> & _).
  cbn [job_data job_name job_ip job_port]. intro H.
  exists c, ip, a, data. repeat split; try assumption. congruence.
Qed.

Lemma send_data_connects (w : tcp_world) (payload : bytes)
  (file_name ip : pystr) (p : N) (ip' : pystr) (p' : N) :
  In (TcpConnect ip' p') (events (send_data w payload file_name ip p)) ->
  ip' = ip /\ p' = p.
Proof.
  intro H.
  pose proof (send_data_events w payload file_name ip p) as He.
  rewrite forallb_forall in He. specialize (He _ H). cbn in He.
  apply andb_true_iff in He as [H1 H2].
  split; [now apply pystr_eqb_eq|now apply N.eqb_eq].
Qed.

Lemma send_data_sends (w : tcp_world) (payload : bytes)
  (file_name ip : pystr) (p : N) (x : bytes) :
  In (TcpSendAll x) (events (send_data w payload file_name ip p)) ->
  make_packet payload file_name = Ok x.
Proof.
  unfold send_data.
  destruct (make_packet payload file_name) as [pkt|e]; [|intros []].
  mrun; intro H; in_trace; congruence.
Qed.

(** X18. The transfer only ever goes to a device that answered: whenever
    the worker of an invocation calls [connect], the port is 5000 and the
    address is the sender of an inbound datagram that carried exactly the
    response bytes. *)
Theorem X18_connects_only_to_responder (h : host) (uw : udp_world)
  (tw : tcp_world) (ctx : context) (m : M unit) (ip : pystr) (p : N) :
  worker_thread (invoke h uw tw ctx) = Some m ->
  In (TcpConnect ip p) (events m) ->
  p = 5000
  /\ exists now port,
       In (now, Datagram response_bytes ip port) (inbound uw)
       /\ expired (clock_start uw) now = false.
Proof.
  intros Hm Hin.
  destruct (worker_inv h uw tw ctx m Hm)
    as (c & ip0 & a & data & D & _ & _ & ->).
  apply send_data_connects in Hin as [-> ->]. split; [reflexivity|].
  apply discover_found_inv in D as (bs & _ & _ & D).
  now apply listen_found_inv in D.
Qed.

Lemma X18_connects_only_to_responder_witness :
  5000 = 5000
  /\ exists now port,
       In (now, Datagram response_bytes headset_ip0 port) (inbound demo_udp)
       /\ expired (clock_start demo_udp) now = false.
Proof.
  apply (X18_connects_only_to_responder demo_host demo_udp demo_tcp
           demo_context _ headset_ip0 5000 eq_refl).
  vm_compute. tauto.
Defined.

(** X19. The only bytes an invocation ever writes to the headset are the
    packet built from the bytes read back from the exported file and from
    the cleaned name of the active object followed by ".glb". *)
Theorem X19_sends_only_the_export (h : host) (uw : udp_world)
  (tw : tcp_world) (ctx : context) (m : M unit) (x : bytes) :
  worker_thread (invoke h uw tw ctx) = Some m ->
  In (TcpSendAll x) (events m) ->
  exists a data,
    active ctx = Some a /\ read_r h = Ok data
    /\ make_packet data (clean_name h (ob_name a) ++ lit ".glb") = Ok x.
Proof.
  intros Hm Hin.
  destruct (worker_inv h uw tw ctx m Hm)
    as (c & ip0 & a & data & _ & Ha & Hr & ->).
  exists a, data. repeat split; try assumption.
  now apply send_data_sends in Hin.
Qed.

Lemma X19_sends_only_the_export_witness :
  exists a data,
    active demo_context = Some a /\ read_r demo_host = Ok data
    /\ make_packet data (clean_name demo_host (ob_name a) ++ lit ".glb")
       = Ok (be_bytes 4 9 ++ blit "Chair.glb" ++ be_bytes 8 10
             ++ blit "0123456789").
Proof.
  apply (X19_sends_only_the_export demo_host demo_udp demo_tcp demo_context
           _ _ eq_refl).
  vm_compute. tauto.
Defined.

(** ** The two threads, again *)

(** C7 as stated fails: in a run that passes every validation, the
    caller's thread itself binds, broadcasts and waits in [recvfrom]. *)
Lemma C7_counterexample :
  passes_validation demo_host demo_context = true
  /\ receives
       (events (main_thread (invoke demo_host demo_udp demo_tcp demo_context)))
     = [UdpRecvFrom 1024]
  /\ network_calls
       (events (main_thread (invoke demo_host demo_udp demo_tcp demo_context)))
     <> [].
Proof. repeat split. discriminate. Qed.

Lemma worker_started_inv (h : host) (uw : udp_world) (tw : tcp_world)
  (ctx : context) (m : M unit) :
  worker_thread (invoke h uw tw ctx) = Some m ->
  exists c ip a data t,
    outcome (discover_headset uw 5001 (normalized_code h ctx))
    = Ok (Some (c :: ip))
    /\ valid_selection ctx = true
    /\ active ctx = Some a
    /\ (exists d ds, duplicated h (selected_objects ctx) = Ok (d :: ds))
    /\ export_r h = None
    /\ read_r h = Ok data
    /\ m = send_data tw data (clean_name h (ob_name a) ++ lit ".glb")
             (c :: ip) 5000
    /\ events (execute h uw ctx)
       = t ++ [ThreadStart; Report INFO (Started (c :: ip))].
Proof.
  unfold invoke. cbn [worker_thread].
  destruct (outcome (execute h uw ctx)) as [[rc [j|]]|e] eqn:O;
    try discriminate.
  destruct (execute_finished_inv h uw ctx rc j O)
    as (c & ip & a & data & D & Ha & Hr & -> & Vs & He & Hd).
  destruct (execute_returns h uw ctx rc _ O)
    as [(_ & X & _)|(_ & data' & name' & c' & ip' & t & Hj & D' & Ht & _)];
    [discriminate|].
  cbn [job_data job_name job_ip job_port]. intro H.
  assert (Ec : c' :: ip' = c :: ip) by congruence.
  rewrite Ec in Ht.
  exists c, ip, a, data, t. repeat split; try assumption. congruence.
Qed.

(** C7, amended. In every invocation with a good code the whole of
    discovery runs on the caller's thread, inside [execute]; that thread
    makes no TCP call.  A worker is started only after discovery has
    returned an address, the selection has passed its checks, copies have
    been made and exported and the exported file has been read; it runs
    [send_data] on the bytes read and the name of the file, to that
    address on port 5000, and makes no UDP call; the caller's thread then
    ends with the thread start followed by the "started" report. *)
Theorem C7_only_transfer_on_worker (h : host) (uw : udp_world)
  (tw : tcp_world) (ctx : context) :
  valid_code h ctx = true ->
  let r := invoke h uw tw ctx in
  let d := discover_headset uw 5001 (normalized_code h ctx) in
  (exists rest,
     events (main_thread r) = events d ++ rest /\ network_calls rest = [])
  /\ filter is_tcp (events (main_thread r)) = []
  /\ (forall m, worker_thread r = Some m ->
        exists c ip a data t,
          outcome d = Ok (Some (c :: ip))
          /\ valid_selection ctx = true
          /\ active ctx = Some a
          /\ (exists n ns,
                duplicated h (selected_objects ctx) = Ok (n :: ns))
          /\ export_r h = None
          /\ read_r h = Ok data
          /\ m = send_data tw data (clean_name h (ob_name a) ++ lit ".glb")
                   (c :: ip) 5000
          /\ filter is_udp (events m) = []
          /\ events (main_thread r)
             = t ++ [ThreadStart; Report INFO (Started (c :: ip))]).
Proof.
  intros V r d. subst r d.
  destruct (execute_after_discovery h uw ctx V) as (rest & E & Hr).
  split; [exists rest; split; [exact E|now apply caller_no_network]|].
  split.
  { unfold invoke. cbn [main_thread].
    rewrite E, filter_app, (caller_no_tcp rest Hr), app_nil_r.
    apply (discovery_no_tcp 5001), discover_events. }
  intros m Hm.
  destruct (worker_started_inv h uw tw ctx m Hm)
    as (c & ip & a & data & t & D & Vs & Ha & Hd & He & Hrd & -> & Ht).
  exists c, ip, a, data, t.
  repeat split; try assumption.
  apply (transfer_no_udp (c :: ip) 5000), send_data_events.
Qed.

(** The demo run: discovery on the caller's thread, the transfer of the
    bytes read to 192.168.1.42 on the worker. *)
Lemma C7_only_transfer_on_worker_witness :
  filter is_tcp
    (events (main_thread (invoke demo_host demo_udp demo_tcp demo_context)))
  = []
  /\ forall m,
       worker_thread (invoke demo_host demo_udp demo_tcp demo_context)
       = Some m ->
       valid_selection demo_context = true
       /\ filter is_udp (events m) = [].
Proof.
  destruct (C7_only_transfer_on_worker demo_host demo_udp demo_tcp
              demo_context eq_refl) as (_ & H2 & H3).
  split; [exact H2|].
  intros m Hm.
  destruct (H3 m Hm)
    as (c & ip & a & data & t & _ & Vs & _ & _ & _ & _ & _ & H & _).
  split; [exact Vs | exact H].
Defined.
